(** * The weather dashboard's API client and its time-boxed response cache

    A shallow embedding of [weather_dashboard/weather_api.py] (class
    [WeatherAPI]) and the properties of its cache, followed by the
    favourites store of [weather_dashboard/data_storage.py] (class
    [DataStorage]).

    Conventions of the embedding:
    - a Python [str] is a [string], read as a sequence of code points
      below 256, on which [str.lower()] acts character by character;
    - a value decoded from JSON, and every dict the client builds from it,
      is a [Json]; Python's [None] is [JNone];
    - a naive [datetime] is the number of microseconds since a fixed origin
      ([datetime] has microsecond resolution), a [timedelta] their
      difference;
    - the dict [self.cache] is a [gmap string CacheEntry];
    - [datetime.now()], [requests.get] and [print] act on an explicit
      world that is threaded through every method. *)

From Stdlib Require Import ZArith Ascii String List.
From stdpp Require Import base option gmap strings list pretty.

Local Open Scope Z_scope.
Local Open Scope string_scope.
Local Open Scope list_scope.

(** ** Strings and cache keys *)

Module Str.

(** [str.lower()] on one code point below 256: the upper-case letters
    are A-Z, U+00C0-U+00D6 and U+00D8-U+00DE, each 32 below its
    lower-case form. *)
Definition is_upper (c : ascii) : bool :=
  let n := Z.of_N (N_of_ascii c) in
  (((65 <=? n) && (n <=? 90)) || ((192 <=? n) && (n <=? 214))
   || ((216 <=? n) && (n <=? 222)))%Z.

Definition lower_char (c : ascii) : ascii :=
  if is_upper c then ascii_of_N (N_of_ascii c + 32) else c.

Fixpoint lower (s : string) : string :=
  match s with
  | EmptyString => EmptyString
  | String c s' => String (lower_char c) (lower s')
  end.

(** Two characters that are the same letter in possibly different case. *)
Definition same_letter (a b : ascii) : Prop :=
  a = b
  \/ (is_upper a = true /\ N_of_ascii b = (N_of_ascii a + 32)%N)
  \/ (is_upper b = true /\ N_of_ascii a = (N_of_ascii b + 32)%N).

(** Two strings that differ only in letter case. *)
Inductive case_variant : string -> string -> Prop :=
| cv_nil : case_variant EmptyString EmptyString
| cv_cons a b s t :
    same_letter a b -> case_variant s t ->
    case_variant (String a s) (String b t).

(** [str.strip()], which [main.py] applies to what the user types before
    it calls the client. The white space below 256: U+0009-U+000D,
    U+001C-U+0020, U+0085 and U+00A0. *)
Definition is_space (c : ascii) : bool :=
  let n := N_of_ascii c in
  (((9 <=? n) && (n <=? 13)) || ((28 <=? n) && (n <=? 32))
   || (n =? 133) || (n =? 160))%N.

Fixpoint lstrip (s : string) : string :=
  match s with
  | EmptyString => EmptyString
  | String c s' => if is_space c then lstrip s' else s
  end.

Fixpoint rev_string (s : string) : string :=
  match s with
  | EmptyString => EmptyString
  | String c s' => rev_string s' +:+ String c EmptyString
  end.

Definition strip (s : string) : string :=
  rev_string (lstrip (rev_string (lstrip s))).

End Str.

(** The two f-strings that build the cache keys,
    [f"current_{city.lower()}"] and [f"forecast_{city.lower()}"]. *)
Definition current_key (city : string) : string := "current_" +:+ Str.lower city.
Definition forecast_key (city : string) : string := "forecast_" +:+ Str.lower city.

(** ** Python values and exceptions *)

(** The exceptions the client's own code can raise on a decoded body. *)
Inductive exn : Type :=
| KeyError | IndexError | TypeError | ValueError | OverflowError | OSError.

(** The outcome of evaluating an expression: a value or a raised exception. *)
Inductive Res (A : Type) : Type :=
| Val (a : A)
| Raise (e : exn).
Arguments Val {A} a.
Arguments Raise {A} e.

Definition res_bind {A B} (r : Res A) (k : A -> Res B) : Res B :=
  match r with
  | Val a => k a
  | Raise e => Raise e
  end.

Notation "'try!' x := r 'in' k" := (res_bind r (fun x => k))
  (at level 10, x name, r at level 100, k at level 200).

(** What [datetime.fromtimestamp(ts)] is asked for: [strftime('%Y-%m-%d')],
    [.hour] and [strftime('%A, %B %d')]. *)
Record LocalTime : Type := {
  date_str : string;
  hour : Z;
  day_label : string
}.

(** Python's numbers ([int] and [float]) and the operations on them that
    the client uses: [not x], [bool] as a subclass of [int], [round(x, 1)]
    and [datetime.fromtimestamp(x)]. Their floating-point and time-zone
    content is the interpreter's and stays abstract. *)
Class PyNum : Type := {
  number : Type;
  is_zero : number -> bool;
  of_bool : bool -> number;
  round1 : number -> number;
  fromtimestamp : number -> Res LocalTime
}.

Section Client.

Context `{PyNum}.

(** A decoded JSON value; a dict keeps its items in insertion order. *)
#[warnings="-register-all"]
Inductive Json : Type :=
| JNone
| JBool (b : bool)
| JNum (n : number)
| JStr (s : string)
| JList (l : list Json)
| JDict (items : list (string * Json)).

(** Truth value: [None], [False], zero and the empty string, list and
    dict are false. *)
Definition truthy (v : Json) : bool :=
  match v with
  | JNone => false
  | JBool b => b
  | JNum n => negb (is_zero n)
  | JStr s => negb (bool_decide (s = ""))
  | JList l => negb (bool_decide (length l = 0%nat))
  | JDict items => negb (bool_decide (length items = 0%nat))
  end.

Fixpoint dict_get (k : string) (items : list (string * Json)) : option Json :=
  match items with
  | [] => None
  | (k', v) :: rest => if bool_decide (k' = k) then Some v else dict_get k rest
  end.

(** [v[k]] for a string [k]. *)
Definition getitem (v : Json) (k : string) : Res Json :=
  match v with
  | JDict items =>
      match dict_get k items with
      | Some x => Val x
      | None => Raise KeyError
      end
  | _ => Raise TypeError
  end.

(** [v[0]]. *)
Definition getitem0 (v : Json) : Res Json :=
  match v with
  | JList (x :: _) => Val x
  | JList [] => Raise IndexError
  | JStr (String c _) => Val (JStr (String c EmptyString))
  | JStr EmptyString => Raise IndexError
  | JDict _ => Raise KeyError
  | _ => Raise TypeError
  end.

(** [round(v, 1)]. *)
Definition py_round1 (v : Json) : Res Json :=
  match v with
  | JNum n => Val (JNum (round1 n))
  | JBool b => Val (JNum (round1 (of_bool b)))
  | _ => Raise TypeError
  end.

(** The items a [for] loop over [v] visits. *)
Definition py_iter (v : Json) : Res (list Json) :=
  match v with
  | JList l => Val l
  | JDict items => Val (map (fun kv => JStr (fst kv)) items)
  | JStr s => Val (map (fun c => JStr (String c EmptyString)) (list_ascii_of_string s))
  | _ => Raise TypeError
  end.

(** [datetime.fromtimestamp(v)]. *)
Definition py_fromtimestamp (v : Json) : Res LocalTime :=
  match v with
  | JNum n => fromtimestamp n
  | JBool b => fromtimestamp (of_bool b)
  | _ => Raise TypeError
  end.

(** *** Parsing the two responses *)

(** The dict [weather_info] of [get_current_weather]; the entries are
    evaluated in the order they are written. *)
Definition weather_info_of (data : Json) : Res Json :=
  try! name := getitem data "name" in
  try! sys := getitem data "sys" in
  try! country := getitem sys "country" in
  try! main := getitem data "main" in
  try! temp := getitem main "temp" in
  try! temperature := py_round1 temp in
  try! main := getitem data "main" in
  try! fl := getitem main "feels_like" in
  try! feels_like := py_round1 fl in
  try! weather := getitem data "weather" in
  try! w0 := getitem0 weather in
  try! description := getitem w0 "description" in
  try! main := getitem data "main" in
  try! humidity := getitem main "humidity" in
  try! main := getitem data "main" in
  try! pressure := getitem main "pressure" in
  try! wind := getitem data "wind" in
  try! speed := getitem wind "speed" in
  try! wind_speed := py_round1 speed in
  Val (JDict [("city", name); ("country", country);
              ("temperature", temperature); ("feels_like", feels_like);
              ("description", description); ("humidity", humidity);
              ("pressure", pressure); ("wind_speed", wind_speed)]).

(** The dict [forecast] built for one item of the forecast list. *)
Definition forecast_of (item : Json) (date_time : LocalTime) : Res Json :=
  try! main := getitem item "main" in
  try! tmin := getitem main "temp_min" in
  try! temp_min := py_round1 tmin in
  try! main := getitem item "main" in
  try! tmax := getitem main "temp_max" in
  try! temp_max := py_round1 tmax in
  try! weather := getitem item "weather" in
  try! w0 := getitem0 weather in
  try! description := getitem w0 "description" in
  try! main := getitem item "main" in
  try! humidity := getitem main "humidity" in
  Val (JDict [("date", JStr (day_label date_time)); ("temp_min", temp_min);
              ("temp_max", temp_max); ("description", description);
              ("humidity", humidity)]).

(** The loop of [get_forecast] over [data['list']]: one forecast per day,
    taken at 12 o'clock, at most five of them. *)
Fixpoint forecast_loop (items : list Json) (forecasts : list Json)
         (processed_dates : gset string) : Res (list Json) :=
  match items with
  | [] => Val forecasts
  | item :: rest =>
      try! dt := getitem item "dt" in
      try! date_time := py_fromtimestamp dt in
      try! st :=
        (if negb (bool_decide (date_str date_time ∈ processed_dates))
            && bool_decide (hour date_time = 12)
         then
           try! forecast := forecast_of item date_time in
           Val (forecasts ++ [forecast], processed_dates ∪ {[date_str date_time]})
         else Val (forecasts, processed_dates)) in
      if bool_decide (5 <= Z.of_nat (length (fst st)))
      then Val (fst st)
      else forecast_loop rest (fst st) (snd st)
  end.

(** The dict [forecast_info] of [get_forecast]. *)
Definition forecast_info_of (data : Json) : Res Json :=
  try! lst := getitem data "list" in
  try! items := py_iter lst in
  try! forecasts := forecast_loop items [] ∅ in
  try! city := getitem data "city" in
  try! name := getitem city "name" in
  Val (JDict [("city", name); ("forecasts", JList forecasts)]).

(** ** The client object and the world it runs in *)

(** One value of [self.cache]: the dict [{'data': ..., 'timestamp': ...}]. *)
Record CacheEntry : Type := {
  data : Json;
  timestamp : Z
}.

(** The attributes of a [WeatherAPI] object; [cache_duration] is in
    seconds. *)
Record WeatherAPI : Type := {
  api_key : string;
  base_url : string;
  cache : gmap string CacheEntry;
  cache_duration : Z
}.

(** The arguments of one [requests.get(url, params=params, timeout=10)]. *)
Record Request : Type := {
  url : string;
  params : list (string * string);
  timeout : Z
}.

(** How one [requests.get] ends, seen from [_make_request]: a response
    with its status code and what [response.json()] gives (a decoded body,
    or an exception with its message), or one of the exceptions that
    [_make_request] catches. *)
Inductive HttpOutcome : Type :=
| Response (status_code : Z) (json : string + Json)
| Timeout
| ConnectionError
| OtherException (msg : string).

(** The object [self] and its environment: the readings [datetime.now()]
    gives, in microseconds, and how many were taken; what the network
    answers to the n-th request, and the requests sent so far; the lines
    printed so far. *)
Record State : Type := {
  self : WeatherAPI;
  clock : nat -> Z;
  reads : nat;
  network : nat -> Request -> HttpOutcome;
  sent : list Request;
  stdout : list string
}.

(** A method: it runs from a state to a result (or a raised exception) and
    the state it leaves. *)
Definition M (A : Type) : Type := State -> Res A * State.

Definition ret {A} (a : A) : M A := fun s => (Val a, s).

Definition raise {A} (e : exn) : M A := fun s => (Raise e, s).

Definition bind {A B} (m : M A) (k : A -> M B) : M B :=
  fun s =>
    match m s with
    | (Val a, s') => k a s'
    | (Raise e, s') => (Raise e, s')
    end.

Definition lift {A} (r : Res A) : M A := fun s => (r, s).

Notation "'let!' x := m 'in' k" := (bind m (fun x => k))
  (at level 10, x name, m at level 100, k at level 200).
Notation "m ;; k" := (bind m (fun _ => k))
  (at level 100, k at level 200, right associativity).

Definition get_self : M WeatherAPI := fun s => (Val (self s), s).

(** [self.cache = c]. *)
Definition set_cache (c : gmap string CacheEntry) : M unit :=
  fun s =>
    (Val tt,
     {| self := {| api_key := api_key (self s); base_url := base_url (self s);
                   cache := c; cache_duration := cache_duration (self s) |};
        clock := clock s; reads := reads s; network := network s;
        sent := sent s; stdout := stdout s |}).

(** [datetime.now()]. *)
Definition datetime_now : M Z :=
  fun s =>
    (Val (clock s (reads s)),
     {| self := self s; clock := clock s; reads := S (reads s);
        network := network s; sent := sent s; stdout := stdout s |}).

(** [requests.get(...)], with the exceptions it raises reified. *)
Definition requests_get (req : Request) : M HttpOutcome :=
  fun s =>
    (Val (network s (length (sent s)) req),
     {| self := self s; clock := clock s; reads := reads s;
        network := network s; sent := sent s ++ [req]; stdout := stdout s |}).

(** [print(line)]. *)
Definition print (line : string) : M unit :=
  fun s =>
    (Val tt,
     {| self := self s; clock := clock s; reads := reads s;
        network := network s; sent := sent s; stdout := stdout s ++ [line] |}).

(** [d[k] = v] on a dict of strings. *)
Fixpoint str_dict_set (k v : string) (d : list (string * string))
  : list (string * string) :=
  match d with
  | [] => [(k, v)]
  | (k', v') :: rest =>
      if bool_decide (k' = k) then (k, v) :: rest
      else (k', v') :: str_dict_set k v rest
  end.

(** ** The methods of [WeatherAPI] *)

Definition __init__ (api_key : string) : WeatherAPI :=
  {| api_key := api_key;
     base_url := "http://api.openweathermap.org/data/2.5";
     cache := ∅;
     cache_duration := 600 |}.

Definition _make_request (endpoint : string) (params : list (string * string))
  : M Json :=
  let! self := get_self in
  let params := str_dict_set "appid" (api_key self) params in
  let params := str_dict_set "units" "metric" params in
  let url := base_url self +:+ "/" +:+ endpoint in
  let! response := requests_get {| url := url; params := params; timeout := 10 |} in
  match response with
  | Response status_code body =>
      if bool_decide (status_code = 200) then
        match body with
        | inr j => ret j
        | inl msg => print ("Error: " +:+ msg) ;; ret JNone
        end
      else
        (if bool_decide (status_code = 401) then print "Error: Invalid API key!"
         else if bool_decide (status_code = 404) then print "Error: City not found!"
         else print ("Error: Request failed with status " +:+ pretty status_code)) ;;
        ret JNone
  | Timeout => print "Error: Request timed out!" ;; ret JNone
  | ConnectionError => print "Error: No internet connection!" ;; ret JNone
  | OtherException msg => print ("Error: " +:+ msg) ;; ret JNone
  end.

(** [time_diff < self.cache_duration], where [time_diff] is the
    [total_seconds()] of a difference of [d] microseconds. For the
    duration the constructor sets, the floating-point quotient [d / 10**6]
    is below 600 exactly when [d < 600 * 10**6]. *)
Definition seconds_lt (d : Z) (duration : Z) : bool :=
  bool_decide (d < duration * 1000000).

Definition _is_cache_valid (cache_key : string) : M bool :=
  let! self := get_self in
  match cache self !! cache_key with
  | None => ret false
  | Some entry =>
      let cached_time := timestamp entry in
      let! current_time := datetime_now in
      let time_diff := current_time - cached_time in
      ret (seconds_lt time_diff (cache_duration self))
  end.

(** [self.cache[cache_key]['data']]. *)
Definition cached_data (cache_key : string) : M Json :=
  let! self := get_self in
  match cache self !! cache_key with
  | Some entry => ret (data entry)
  | None => raise KeyError
  end.

(** [self.cache[cache_key] = {'data': info, 'timestamp': datetime.now()}]. *)
Definition cache_store (cache_key : string) (info : Json) : M unit :=
  let! now := datetime_now in
  let! self := get_self in
  set_cache (<[cache_key := {| data := info; timestamp := now |}]> (cache self)).

Definition get_current_weather (city : string) : M Json :=
  let cache_key := current_key city in
  let! valid := _is_cache_valid cache_key in
  if valid then
    print "(Using cached data)" ;;
    cached_data cache_key
  else
    let params := [("q", city)] in
    let! data := _make_request "weather" params in
    if negb (truthy data) then ret JNone
    else
      let! weather_info := lift (weather_info_of data) in
      cache_store cache_key weather_info ;;
      ret weather_info.

Definition get_forecast (city : string) : M Json :=
  let cache_key := forecast_key city in
  let! valid := _is_cache_valid cache_key in
  if valid then
    print "(Using cached data)" ;;
    cached_data cache_key
  else
    let params := [("q", city)] in
    let! data := _make_request "forecast" params in
    if negb (truthy data) then ret JNone
    else
      let! forecast_info := lift (forecast_info_of data) in
      cache_store cache_key forecast_info ;;
      ret forecast_info.

Definition clear_cache : M unit := set_cache ∅.

(** ** The cache as one operation

    [get_current_weather] and [get_forecast] share one shape: look the key
    up, serve a fresh entry, otherwise fetch, parse and store. The
    specification calls it [get_or_fetch]; here the fetch is the request to
    [endpoint] for [city], followed by [parse]. *)
Definition get_or_fetch (cache_key endpoint city : string)
           (parse : Json -> Res Json) : M Json :=
  let! valid := _is_cache_valid cache_key in
  if valid then
    print "(Using cached data)" ;;
    cached_data cache_key
  else
    let! data := _make_request endpoint [("q", city)] in
    if negb (truthy data) then ret JNone
    else
      let! info := lift (parse data) in
      cache_store cache_key info ;;
      ret info.

(** The two kinds of request the client caches. *)
Inductive RequestKind : Type := Current | Forecast.

Definition lookup_key (kind : RequestKind) (city : string) : string :=
  match kind with
  | Current => current_key city
  | Forecast => forecast_key city
  end.

Definition endpoint_of (kind : RequestKind) : string :=
  match kind with
  | Current => "weather"
  | Forecast => "forecast"
  end.

Definition parser_of (kind : RequestKind) : Json -> Res Json :=
  match kind with
  | Current => weather_info_of
  | Forecast => forecast_info_of
  end.

Definition run_lookup (kind : RequestKind) (city : string) : M Json :=
  match kind with
  | Current => get_current_weather city
  | Forecast => get_forecast city
  end.

(** A call of one of the public methods of the object. *)
Inductive Call : Type :=
| Lookup (kind : RequestKind) (city : string)
| ClearCache.

(** The state a call leaves, whatever it returns or raises. *)
Definition exec (c : Call) (s : State) : State :=
  match c with
  | Lookup kind city => snd (run_lookup kind city s)
  | ClearCache => snd (clear_cache s)
  end.

Definition exec_all (cs : list Call) (s : State) : State :=
  fold_left (fun st c => exec c st) cs s.

(** The reading the next [datetime.now()] gives. *)
Definition next_now (s : State) : Z := clock s (reads s).

(** The request a lookup sends when it fetches. *)
Definition request_for (s : State) (kind : RequestKind) (city : string) : Request :=
  {| url := base_url (self s) +:+ "/" +:+ endpoint_of kind;
     params := [("q", city); ("appid", api_key (self s)); ("units", "metric")];
     timeout := 10 |}.

(** Whether the entry at [k], if any, is within the freshness window at
    the next reading of the clock. *)
Definition fresh (s : State) (k : string) : bool :=
  match cache (self s) !! k with
  | Some e => seconds_lt (next_now s - timestamp e) (cache_duration (self s))
  | None => false
  end.

(** The state after [_is_cache_valid k]: the clock is read only when there
    is an entry at [k]. *)
Definition checked (s : State) (k : string) : State := snd (_is_cache_valid k s).

(** What a lookup of key [k] that sends [req] on a miss can do from [s]:
    serve the fresh entry, report that the fetch gave no data, let an
    exception of the parser through, or store and return the parsed data. *)
Inductive Outcome (k : string) (req : Request) (s : State)
  : Res Json -> State -> Prop :=
| Served e s' :
    cache (self s) !! k = Some e ->
    fresh s k = true ->
    self s' = self s ->
    sent s' = sent s ->
    reads s' = S (reads s) ->
    stdout s' = stdout s ++ ["(Using cached data)"] ->
    Outcome k req s (Val (data e)) s'
| NoData s' :
    fresh s k = false ->
    self s' = self s ->
    sent s' = sent s ++ [req] ->
    reads s' = reads (checked s k) ->
    Outcome k req s (Val JNone) s'
| Raised ex s' :
    fresh s k = false ->
    self s' = self s ->
    sent s' = sent s ++ [req] ->
    reads s' = reads (checked s k) ->
    Outcome k req s (Raise ex) s'
| Stored info s' :
    fresh s k = false ->
    cache (self s')
    = <[k := {| data := info; timestamp := next_now (checked s k) |}]>
        (cache (self s)) ->
    api_key (self s') = api_key (self s) ->
    base_url (self s') = base_url (self s) ->
    cache_duration (self s') = cache_duration (self s) ->
    sent s' = sent s ++ [req] ->
    reads s' = S (reads (checked s k)) ->
    Outcome k req s (Val info) s'.

(** The first testable property of the specification, read word for word
    at one lookup: the same lookup made again less than the window after the
    first call sends no request and returns what the first call returned. *)
Definition second_call_served (kind : RequestKind) (city : string) (s : State)
  : Prop :=
  let s1 := snd (run_lookup kind city s) in
  next_now s1 - next_now s < cache_duration (self s) * 1000000 ->
  sent (snd (run_lookup kind city s1)) = sent s1
  /\ fst (run_lookup kind city s1) = fst (run_lookup kind city s).


(** The [invalidate(key)] of the specification, as an effect on the cache:
    the entry at [k] is gone, the others stay. *)
Definition invalidated (k : string) (before after : gmap string CacheEntry)
  : Prop :=
  after = delete k before.

(** The request [_make_request(endpoint, ps)] builds in state [s]. *)
Definition request_built (s : State) (endpoint : string)
           (ps : list (string * string)) : Request :=
  {| url := base_url (self s) +:+ "/" +:+ endpoint;
     params := str_dict_set "units" "metric"
                 (str_dict_set "appid" (api_key (self s)) ps);
     timeout := 10 |}.

(** The requests a client constructed with [key] sends: to one of the two
    endpoints of the base URL, with the city, the key and metric units, and
    a timeout of ten seconds. *)
Definition client_request (key : string) (r : Request) : Prop :=
  exists kind city,
    r = {| url := "http://api.openweathermap.org/data/2.5" +:+ "/"
                  +:+ endpoint_of kind;
           params := [("q", city); ("appid", key); ("units", "metric")];
           timeout := 10 |}.

(** An item of the forecast list whose time stamp decodes to a local time
    that is not at 12 o'clock. *)
Definition off_noon (item : Json) : Prop :=
  exists dt date_time,
    getitem item "dt" = Val dt
    /\ py_fromtimestamp dt = Val date_time
    /\ hour date_time <> 12.

(** An item of the forecast list with the local time of its time stamp, as
    the loop of [get_forecast] pairs them, and the forecast made of it. *)
Definition picked_at_noon (p : Json * LocalTime) (forecast : Json) : Prop :=
  (exists dt, getitem (fst p) "dt" = Val dt
              /\ py_fromtimestamp dt = Val (snd p))
  /\ hour (snd p) = 12
  /\ forecast_of (fst p) (snd p) = Val forecast.

(** A freshly constructed client in a given environment. *)
Definition start (key : string) (clk : nat -> Z)
           (net : nat -> Request -> HttpOutcome) : State :=
  {| self := __init__ key; clock := clk; reads := 0; network := net;
     sent := []; stdout := [] |}.

End Client.

(** ** The favourites store of [data_storage.py]

    Class [DataStorage] keeps the user's favourite cities and settings in a
    dict that it loads from, and saves to, a JSON file. The dict is whatever
    the file held, so every operation is modelled on an arbitrary [Json]
    value, with the exceptions Python raises on the wrong shapes. A [Json]
    value is a tree without sharing, as [json.load] builds it: a caller that
    puts one list object in two places of the dict (say, the list that
    [get_favorites] returned, passed to [set_setting]) is outside the
    model. *)

Module DataStorage.

(** [str.title()]; what it does to a string is the interpreter's. *)
Class PyText : Type := { title : string -> string }.

(** The exceptions of this module: those of the client, and
    [AttributeError]. *)
Inductive error : Type :=
| Builtin (e : exn)
| AttributeError.

Inductive Try (A : Type) : Type :=
| Done (a : A)
| Failed (e : error).
Arguments Done {A} a.
Arguments Failed {A} e.

(** What [_load_data] finds when it looks for the file: nothing (it does
    not exist), a JSON text with its decoded value, a text that is not JSON,
    or something that cannot be read. *)
Inductive FileState `{PyNum} : Type :=
| Missing
| Holds (content : Json)
| Corrupted
| Unreadable (msg : string).

(** How an attempt to write the file ends: normally, or with an exception
    and its message. *)
Inductive WriteOutcome : Type :=
| WriteOk
| WriteError (msg : string).

Section Store.

Context `{PyNum} `{PyText}.

(** [sub in s] for two strings. *)
Fixpoint starts_with (sub s : string) : bool :=
  match sub, s with
  | EmptyString, _ => true
  | String a sub', String b s' => bool_decide (a = b) && starts_with sub' s'
  | String _ _, EmptyString => false
  end.

Fixpoint contains (s sub : string) : bool :=
  starts_with sub s
  || match s with
     | EmptyString => false
     | String _ s' => contains s' sub
     end.

(** [x == city] for a value [x] and a string [city]. *)
Definition eq_str (city : string) (x : Json) : bool :=
  match x with
  | JStr s => bool_decide (s = city)
  | _ => false
  end.

(** [d.get(k, default)]. *)
Definition py_get (d : Json) (k : string) (default : Json) : Try Json :=
  match d with
  | JDict items =>
      Done (match dict_get k items with Some v => v | None => default end)
  | _ => Failed AttributeError
  end.

(** [city in container]. *)
Definition py_in (city : string) (container : Json) : Try bool :=
  match container with
  | JList l => Done (existsb (eq_str city) l)
  | JDict items => Done (existsb (fun kv => bool_decide (fst kv = city)) items)
  | JStr s => Done (contains s city)
  | _ => Failed (Builtin TypeError)
  end.

(** [lst.append(city)]: the list after it. *)
Definition py_append (lst : Json) (city : string) : Try Json :=
  match lst with
  | JList l => Done (JList (l ++ [JStr city]))
  | _ => Failed AttributeError
  end.

Fixpoint remove_first (city : string) (l : list Json) : option (list Json) :=
  match l with
  | [] => None
  | x :: rest =>
      if eq_str city x then Some rest
      else match remove_first city rest with
           | Some rest' => Some (x :: rest')
           | None => None
           end
  end.

(** [lst.remove(city)]: the list after it. *)
Definition py_remove (lst : Json) (city : string) : Try Json :=
  match lst with
  | JList l =>
      match remove_first city l with
      | Some l' => Done (JList l')
      | None => Failed (Builtin ValueError)
      end
  | _ => Failed AttributeError
  end.

(** [items[k] = v] on the items of a dict. *)
Fixpoint dict_set (k : string) (v : Json) (items : list (string * Json))
  : list (string * Json) :=
  match items with
  | [] => [(k, v)]
  | (k', v') :: rest =>
      if bool_decide (k' = k) then (k, v) :: rest
      else (k', v') :: dict_set k v rest
  end.

(** [d[k] = v]: the object after it. *)
Definition py_setitem (d : Json) (k : string) (v : Json) : Try Json :=
  match d with
  | JDict items => Done (JDict (dict_set k v items))
  | _ => Failed (Builtin TypeError)
  end.

(** [d[k]]. *)
Definition py_getitem (d : Json) (k : string) : Try Json :=
  match getitem d k with
  | Val v => Done v
  | Raise e => Failed (Builtin e)
  end.

(** The attributes of a [DataStorage] object. *)
Record DataStorage : Type := {
  filename : string;
  data : Json
}.

(** The object and its environment: how the n-th attempt to write the
    file ends, the data of each attempt made so far (an attempt is the
    whole [with open(...) as file: json.dump(...)] block; when it fails,
    [json.dump] may not have been reached) and the lines printed. *)
Record State : Type := {
  self : DataStorage;
  disk : nat -> WriteOutcome;
  attempts : list Json;
  stdout : list string
}.

Definition M (A : Type) : Type := State -> Try A * State.

Definition ret {A} (a : A) : M A := fun s => (Done a, s).

Definition bind {A B} (m : M A) (k : A -> M B) : M B :=
  fun s =>
    match m s with
    | (Done a, s') => k a s'
    | (Failed e, s') => (Failed e, s')
    end.

Definition lift {A} (r : Try A) : M A := fun s => (r, s).

Notation "'let!' x := m 'in' k" := (bind m (fun x => k))
  (at level 10, x name, m at level 100, k at level 200).
Notation "m ;; k" := (bind m (fun _ => k))
  (at level 100, k at level 200, right associativity).

Definition get_data : M Json := fun s => (Done (data (self s)), s).

(** [self.data = d]. *)
Definition set_data (d : Json) : M unit :=
  fun s =>
    (Done tt,
     {| self := {| filename := filename (self s); data := d |};
        disk := disk s; attempts := attempts s; stdout := stdout s |}).

Definition print (line : string) : M unit :=
  fun s =>
    (Done tt,
     {| self := self s; disk := disk s; attempts := attempts s;
        stdout := stdout s ++ [line] |}).

(** [with open(self.filename, 'w') as file: json.dump(d, file, indent=4)],
    with the exception it may raise reified. *)
Definition write_file (d : Json) : M WriteOutcome :=
  fun s =>
    (Done (disk s (length (attempts s))),
     {| self := self s; disk := disk s; attempts := attempts s ++ [d];
        stdout := stdout s |}).

(** [_save_data(data=None)]; the argument [None] stands for [self.data]. *)
Definition _save_data (arg : Json) : M bool :=
  let! current := get_data in
  let d := match arg with JNone => current | _ => arg end in
  let! outcome := write_file d in
  match outcome with
  | WriteOk => ret true
  | WriteError msg => print ("Error saving data: " +:+ msg) ;; ret false
  end.

(** [_load_data()], given what it finds at [self.filename]. *)
Definition _load_data (found : FileState) : M Json :=
  match found with
  | Missing =>
      let default_data :=
        JDict [("favorites", JList []);
               ("settings", JDict [("units", JStr "metric");
                                   ("default_city", JNone)])] in
      _save_data default_data ;; ret default_data
  | Holds content => ret content
  | Corrupted =>
      print "Error: Corrupted data file. Creating new one." ;;
      let default_data :=
        JDict [("favorites", JList []); ("settings", JDict [])] in
      _save_data default_data ;; ret default_data
  | Unreadable msg =>
      print ("Error loading data: " +:+ msg) ;;
      ret (JDict [("favorites", JList []); ("settings", JDict [])])
  end.

(** [DataStorage(filename)] in an environment: the state after
    [__init__]. Until [_load_data] returns, [self.data] is not set; it is
    not read before. *)
Definition __init__ (name : string) (found : FileState)
           (d : nat -> WriteOutcome) : State :=
  let s0 := {| self := {| filename := name; data := JNone |};
               disk := d; attempts := []; stdout := [] |} in
  snd ((let! loaded := _load_data found in set_data loaded) s0).

Definition get_favorites : M Json :=
  let! d := get_data in
  lift (py_get d "favorites" (JList [])).

Definition add_favorite (city : string) : M bool :=
  let city := title (Str.strip city) in
  let! favorites := get_favorites in
  let! present := lift (py_in city favorites) in
  if present then ret false
  else
    let! favorites := lift (py_append favorites city) in
    let! d := get_data in
    let! d := lift (py_setitem d "favorites" favorites) in
    set_data d ;;
    _save_data JNone.

Definition remove_favorite (city : string) : M bool :=
  let city := title (Str.strip city) in
  let! favorites := get_favorites in
  let! present := lift (py_in city favorites) in
  if negb present then ret false
  else
    let! favorites := lift (py_remove favorites city) in
    let! d := get_data in
    let! d := lift (py_setitem d "favorites" favorites) in
    set_data d ;;
    _save_data JNone.

Definition is_favorite (city : string) : M bool :=
  let city := title (Str.strip city) in
  let! favorites := get_favorites in
  lift (py_in city favorites).

Definition get_setting (key : string) (default : Json) : M Json :=
  let! d := get_data in
  let! settings := lift (py_get d "settings" (JDict [])) in
  lift (py_get settings key default).

Definition set_setting (key : string) (value : Json) : M bool :=
  let! d := get_data in
  let! present := lift (py_in "settings" d) in
  (if negb present then
     let! d := lift (py_setitem d "settings" (JDict [])) in
     set_data d
   else ret tt) ;;
  let! d := get_data in
  let! settings := lift (py_getitem d "settings") in
  let! settings := lift (py_setitem settings key value) in
  let! d := lift (py_setitem d "settings" settings) in
  set_data d ;;
  _save_data JNone.

Definition get_default_city : M Json :=
  let! d := get_data in
  let! settings := lift (py_get d "settings" (JDict [])) in
  lift (py_get settings "default_city" JNone).

Definition set_default_city (city : string) : M bool :=
  let city := title (Str.strip city) in
  set_setting "default_city" (JStr city).

Definition clear_favorites : M bool :=
  let! d := get_data in
  let! d := lift (py_setitem d "favorites" (JList [])) in
  set_data d ;;
  _save_data JNone.

(** The favourites as a list of values, when the store holds a dict whose
    ['favorites'], if there, is a list. *)
Definition favorite_list (s : State) : option (list Json) :=
  match data (self s) with
  | JDict items =>
      match dict_get "favorites" items with
      | Some (JList l) => Some l
      | Some _ => None
      | None => Some []
      end
  | _ => None
  end.

End Store.

End DataStorage.

(** ** A concrete interpreter and environment for examples

    Integers only: [round(x, 1)] of an [int] is the [int] itself, and
    [fromtimestamp] knows the few time stamps the examples use, read in
    UTC. *)
Definition demo_times : list (Z * LocalTime) :=
  [(43200, {| date_str := "1970-01-01"; hour := 12;
              day_label := "Thursday, January 01" |});
   (54000, {| date_str := "1970-01-01"; hour := 15;
              day_label := "Thursday, January 01" |});
   (129600, {| date_str := "1970-01-02"; hour := 12;
               day_label := "Friday, January 02" |})].

Definition demo_num : PyNum :=
  {| number := Z;
     is_zero := Z.eqb 0;
     of_bool := fun b => if b then 1 else 0;
     round1 := fun n => n;
     fromtimestamp := fun n =>
       match find (fun p => Z.eqb (fst p) n) demo_times with
       | Some p => Val (snd p)
       | None => Raise OverflowError
       end |}.

Section Demo.

#[local] Existing Instance demo_num.

(** A body of the [weather] endpoint. *)
Definition demo_body (name : string) (temp : Z) : Json :=
  JDict [("name", JStr name);
         ("sys", JDict [("country", JStr "EU")]);
         ("main", JDict [("temp", JNum temp); ("feels_like", JNum temp);
                         ("humidity", JNum 40); ("pressure", JNum 1013)]);
         ("weather", JList [JDict [("description", JStr "clear sky")]]);
         ("wind", JDict [("speed", JNum 3)])].

(** One item of the list of the [forecast] endpoint. *)
Definition demo_item (dt tmin tmax : Z) : Json :=
  JDict [("dt", JNum dt);
         ("main", JDict [("temp_min", JNum tmin); ("temp_max", JNum tmax);
                         ("humidity", JNum 50)]);
         ("weather", JList [JDict [("description", JStr "light rain")]])].

(** A body of the [forecast] endpoint: noon and 15:00 of the first day,
    noon of the second. *)
Definition demo_forecast_body (name : string) : Json :=
  JDict [("list", JList [demo_item 43200 10 18; demo_item 54000 12 19;
                         demo_item 129600 9 17]);
         ("city", JDict [("name", JStr name)])].

(** A server that knows Paris and Rome only; the n-th request, when it
    asks for the weather, is answered with temperature [20 + n]. *)
Definition demo_server (n : nat) (req : Request) : HttpOutcome :=
  let forecast :=
    bool_decide (url req = "http://api.openweathermap.org/data/2.5/forecast") in
  let answer name :=
    if forecast then Response 200 (inr (demo_forecast_body name))
    else Response 200 (inr (demo_body name (20 + Z.of_nat n))) in
  match req.(params) with
  | ("q", city) :: _ =>
      if bool_decide (Str.lower city = "paris") then answer "Paris"
      else if bool_decide (Str.lower city = "rome") then answer "Rome"
      else Response 404 (inr JNone)
  | _ => Response 404 (inr JNone)
  end.

(** A clock whose n-th reading is [t0 + n * step] microseconds. *)
Definition linear_clock (t0 step : Z) (n : nat) : Z := t0 + Z.of_nat n * step.

(** The client of [main.py] under a clock that advances by [step]
    microseconds from one reading to the next. *)
Definition demo_client (step : Z) : State :=
  start "your_api_key_here" (linear_clock 0 step) demo_server.

(** Five minutes between two readings. *)
Definition demo_start : State := demo_client 300000000.

(** What a lookup of Paris parses from the body with temperature [temp]. *)
Definition demo_info_of (temp : Z) : Json :=
  JDict [("city", JStr "Paris"); ("country", JStr "EU");
         ("temperature", JNum temp); ("feels_like", JNum temp);
         ("description", JStr "clear sky"); ("humidity", JNum 40);
         ("pressure", JNum 1013); ("wind_speed", JNum 3)].

(** What the first lookup of Paris returns and stores. *)
Definition demo_info : Json :=
  JDict [("city", JStr "Paris"); ("country", JStr "EU");
         ("temperature", JNum 20); ("feels_like", JNum 20);
         ("description", JStr "clear sky"); ("humidity", JNum 40);
         ("pressure", JNum 1013); ("wind_speed", JNum 3)].

Definition demo_entry : CacheEntry := {| data := demo_info; timestamp := 0 |}.

(** The client after a first lookup of Paris, stored at time 0. *)
Definition demo_cached (step : Z) : State :=
  snd (get_current_weather "Paris" (demo_client step)).

(** The same client after it has looked up Paris and Rome. *)
Definition demo_two_cities : State :=
  exec_all [Lookup Current "Paris"; Lookup Current "Rome"] demo_start.

(** A server whose answers have status 200 but not the fields the client
    reads. *)
Definition demo_broken_server (n : nat) (req : Request) : HttpOutcome :=
  Response 200 (inr (JDict [("cod", JStr "200")])).

Definition demo_broken : State :=
  start "your_api_key_here" (linear_clock 0 300000000) demo_broken_server.

(** The client after a first lookup of Paris stamped at one hour, under a
    clock that is then set back to zero. *)
Definition demo_set_back : State :=
  snd (get_current_weather "Paris"
         (start "your_api_key_here"
                (fun n => match n with O => 3600000000 | S _ => 0 end)
                demo_server)).


(** The items of the forecast body, and the forecasts made of them. *)
Definition demo_items : list Json :=
  [demo_item 43200 10 18; demo_item 54000 12 19; demo_item 129600 9 17].

Definition demo_forecasts : list Json :=
  [JDict [("date", JStr "Thursday, January 01");
          ("temp_min", JNum 10); ("temp_max", JNum 18);
          ("description", JStr "light rain"); ("humidity", JNum 50)];
   JDict [("date", JStr "Friday, January 02");
          ("temp_min", JNum 9); ("temp_max", JNum 17);
          ("description", JStr "light rain"); ("humidity", JNum 50)]].

(** [str.title()] on ASCII strings: a letter that follows a letter is
    lower-cased, any other letter is upper-cased. *)
Definition is_ascii_lower (c : ascii) : bool :=
  ((97 <=? N_of_ascii c) && (N_of_ascii c <=? 122))%N.

Definition is_ascii_upper (c : ascii) : bool :=
  ((65 <=? N_of_ascii c) && (N_of_ascii c <=? 90))%N.

Fixpoint title_from (previous_is_cased : bool) (s : string) : string :=
  match s with
  | EmptyString => EmptyString
  | String c s' =>
      if is_ascii_lower c then
        String (if previous_is_cased then c
                else ascii_of_N (N_of_ascii c - 32)) (title_from true s')
      else if is_ascii_upper c then
        String (if previous_is_cased then ascii_of_N (N_of_ascii c + 32)
                else c) (title_from true s')
      else String c (title_from false s')
  end.

Definition demo_text : DataStorage.PyText :=
  {| DataStorage.title := title_from false |}.

(** A store that finds no file and whose writes go through, and one whose
    writes fail. *)
Definition demo_store : @DataStorage.State demo_num :=
  DataStorage.__init__ "weather_data.json" DataStorage.Missing
                       (fun _ => DataStorage.WriteOk).

Definition demo_store_read_only : @DataStorage.State demo_num :=
  DataStorage.__init__ "weather_data.json" DataStorage.Missing
                       (fun _ => DataStorage.WriteError "Permission denied").

End Demo.

(** * Properties *)

(** ** Cache keys *)









Lemma lower_char_not_upper a :
  Str.is_upper (Str.lower_char a) = false.
Proof.
  unfold Str.lower_char. destruct (Str.is_upper a) eqn:Hu; [|exact Hu].
  apply not_true_iff_false. intros Hc. unfold Str.is_upper in *.
  pose proof (N_ascii_bounded a) as Hb.
  rewrite !orb_true_iff, !andb_true_iff, !Z.leb_le in Hu.
  rewrite N_ascii_embedding in Hc by lia.
  rewrite N2Z.inj_add, !orb_true_iff, !andb_true_iff, !Z.leb_le in Hc. lia.
Qed.

(** X13. Lower-casing is idempotent and makes a case variant: a city and
    its lower-cased form differ only in letter case, and the key of the
    lower-cased form is the key of the city. *)
Theorem lower_is_normal_form c kind :
  Str.lower (Str.lower c) = Str.lower c
  /\ Str.case_variant c (Str.lower c)
  /\ lookup_key kind (Str.lower c) = lookup_key kind c.
Proof.
  assert (Hidem : Str.lower (Str.lower c) = Str.lower c).
  { induction c as [|a c IH]; [reflexivity|]. simpl. rewrite IH. f_equal.
    unfold Str.lower_char at 1. now rewrite lower_char_not_upper. }
  split; [exact Hidem|]. split.
  - clear Hidem. induction c as [|a c IH]; simpl; constructor; [|exact IH].
    unfold Str.same_letter, Str.lower_char.
    destruct (Str.is_upper a) eqn:Hu; [|now left].
    right. left. split; [reflexivity|]. apply N_ascii_embedding.
    pose proof (N_ascii_bounded a) as Hb. unfold Str.is_upper in Hu.
    rewrite !orb_true_iff, !andb_true_iff, !Z.leb_le in Hu. lia.
  - unfold lookup_key, current_key, forecast_key. now destruct kind; rewrite Hidem.
Qed.

(** X14. Two lookups share a cache entry only if they are of the same
    kind and their cities have the same lower-cased form: current weather
    and forecasts never collide, nor do two cities that differ in more than
    letter case. *)
Theorem keys_collide_only_by_case kind kind' c c' :
  lookup_key kind c = lookup_key kind' c'
  <-> kind = kind' /\ Str.lower c = Str.lower c'.
Proof.
  split.
  - unfold lookup_key, current_key, forecast_key.
    destruct kind, kind'; simpl; intros [= Heq]; auto.
  - intros [<- Heq]. unfold lookup_key, current_key, forecast_key.
    now destruct kind; rewrite Heq.
Qed.

Section Properties.

Context `{PyNum}.

Implicit Types (s : State) (k city endpoint : string) (kind : RequestKind).

(** ** The primitives and the two helpers *)

Lemma run_lookup_unfold kind city :
  run_lookup kind city
  = get_or_fetch (lookup_key kind city) (endpoint_of kind) city (parser_of kind).
Proof. destruct kind; reflexivity. Qed.

(** [_make_request] always returns, sends exactly one request and touches
    neither the object nor the clock. *)
Lemma make_request_run endpoint city s :
  let r := _make_request endpoint [("q", city)] s in
  (exists j, fst r = Val j)
  /\ self (snd r) = self s
  /\ clock (snd r) = clock s
  /\ reads (snd r) = reads s
  /\ network (snd r) = network s
  /\ sent (snd r)
     = sent s ++ [{| url := base_url (self s) +:+ "/" +:+ endpoint;
                     params := [("q", city); ("appid", api_key (self s));
                                ("units", "metric")];
                     timeout := 10 |}].
Proof.
  unfold _make_request, bind, get_self, requests_get, print, ret. simpl.
  destruct (network s _ _) as [code [msg|j]| | |msg]; simpl;
    repeat case_bool_decide; simpl; eauto 10.
Qed.

Lemma is_cache_valid_run k s :
  _is_cache_valid k s = (Val (fresh s k), checked s k).
Proof.
  unfold checked, fresh, _is_cache_valid, bind, get_self, datetime_now, ret, next_now.
  simpl. destruct (cache (self s) !! k); reflexivity.
Qed.

Lemma checked_frame k s :
  self (checked s k) = self s /\ clock (checked s k) = clock s
  /\ network (checked s k) = network s /\ sent (checked s k) = sent s
  /\ stdout (checked s k) = stdout s.
Proof.
  unfold checked, _is_cache_valid, bind, get_self, datetime_now, ret. simpl.
  destruct (cache (self s) !! k); simpl; auto.
Qed.

Lemma checked_reads k s :
  reads (checked s k)
  = match cache (self s) !! k with Some _ => S (reads s) | None => reads s end.
Proof.
  unfold checked, _is_cache_valid, bind, get_self, datetime_now, ret. simpl.
  destruct (cache (self s) !! k); reflexivity.
Qed.

(** ** What one lookup does *)

Lemma get_or_fetch_outcome k endpoint city parse s r s' :
  get_or_fetch k endpoint city parse s = (r, s') ->
  Outcome k {| url := base_url (self s) +:+ "/" +:+ endpoint;
               params := [("q", city); ("appid", api_key (self s));
                          ("units", "metric")];
               timeout := 10 |} s r s'.
Proof.
  unfold get_or_fetch, bind at 1. rewrite is_cache_valid_run.
  destruct (checked_frame k s) as (Hs & Hc & Hn & Hse & Ho).
  destruct (fresh s k) eqn:Hf.
  - pose proof Hf as Hf'. unfold fresh in Hf'.
    destruct (cache (self s) !! k) as [e|] eqn:He; [|discriminate].
    pose proof (checked_reads k s) as Hr. rewrite He in Hr.
    cbv [bind print cached_data get_self ret]. simpl. rewrite Hs, He.
    intros [= <- <-]. eapply Served; simpl; eauto; congruence.
  - destruct (make_request_run endpoint city (checked s k))
      as ([j Hj] & Hs2 & Hc2 & Hr2 & Hn2 & Hse2).
    unfold bind at 1.
    destruct (_make_request endpoint [("q", city)] (checked s k)) as [rq s2].
    simpl in *. subst rq. rewrite Hs, Hse in Hse2.
    destruct (truthy j); simpl.
    + unfold bind, lift. destruct (parse j) as [info|ex]; simpl.
      * cbv [cache_store bind datetime_now get_self set_cache ret]. simpl.
        intros [= <- <-].
        eapply Stored; simpl; rewrite ?Hs2, ?Hs, ?Hr2, ?Hc2, ?Hc; eauto.
        unfold next_now. now rewrite Hc.
      * intros [= <- <-]. eapply Raised; simpl; eauto; congruence.
    + unfold ret. intros [= <- <-]. eapply NoData; simpl; eauto; congruence.
Qed.

(** The environment is never changed by a lookup. *)
Lemma get_or_fetch_env k endpoint city parse s r s' :
  get_or_fetch k endpoint city parse s = (r, s') ->
  clock s' = clock s /\ network s' = network s.
Proof.
  unfold get_or_fetch, bind at 1. rewrite is_cache_valid_run.
  destruct (checked_frame k s) as (Hs & Hc & Hn & Hse & Ho).
  destruct (fresh s k).
  - cbv [bind print cached_data get_self ret raise]. simpl.
    destruct (cache (self (checked s k)) !! k); intros [= <- <-]; simpl; auto.
  - destruct (make_request_run endpoint city (checked s k))
      as ([j Hj] & Hs2 & Hc2 & Hr2 & Hn2 & Hse2).
    unfold bind at 1.
    destruct (_make_request endpoint [("q", city)] (checked s k)) as [rq s2].
    simpl in *. subst rq.
    destruct (truthy j); simpl.
    + unfold bind, lift. destruct (parse j) as [info|ex]; simpl.
      * cbv [cache_store bind datetime_now get_self set_cache ret]. simpl.
        intros [= <- <-]. simpl. split; congruence.
      * intros [= <- <-]. split; congruence.
    + unfold ret. intros [= <- <-]. split; congruence.
Qed.

Lemma run_lookup_env kind city s :
  clock (snd (run_lookup kind city s)) = clock s
  /\ network (snd (run_lookup kind city s)) = network s.
Proof.
  rewrite run_lookup_unfold.
  destruct (get_or_fetch _ _ _ _ s) as [r s'] eqn:E.
  apply get_or_fetch_env in E. exact E.
Qed.

Lemma run_lookup_outcome kind city s :
  Outcome (lookup_key kind city) (request_for s kind city) s
          (fst (run_lookup kind city s)) (snd (run_lookup kind city s)).
Proof.
  rewrite run_lookup_unfold.
  destruct (get_or_fetch _ _ _ _ s) as [r s'] eqn:E.
  apply get_or_fetch_outcome in E. exact E.
Qed.

Lemma fresh_true s k :
  fresh s k = true
  <-> exists e, cache (self s) !! k = Some e
             /\ next_now s - timestamp e < cache_duration (self s) * 1000000.
Proof.
  unfold fresh, seconds_lt. destruct (cache (self s) !! k) as [e|].
  - rewrite bool_decide_eq_true. split; [eauto|]. now intros (e' & [= <-] & Hlt).
  - split; [discriminate|]. now intros (e' & [=] & _).
Qed.

Lemma fresh_false s k :
  fresh s k = false
  <-> cache (self s) !! k = None
      \/ exists e, cache (self s) !! k = Some e
                /\ cache_duration (self s) * 1000000 <= next_now s - timestamp e.
Proof.
  unfold fresh, seconds_lt. destruct (cache (self s) !! k) as [e|].
  - rewrite bool_decide_eq_false. split.
    + intros Hn. right. exists e. split; [reflexivity|lia].
    + intros [[=]|(e' & [= <-] & Hle)]. lia.
  - split; auto.
Qed.

(** A fresh entry is served: no request is sent, the object is unchanged. *)
Lemma lookup_served kind city s e :
  cache (self s) !! lookup_key kind city = Some e ->
  fresh s (lookup_key kind city) = true ->
  fst (run_lookup kind city s) = Val (data e)
  /\ self (snd (run_lookup kind city s)) = self s
  /\ sent (snd (run_lookup kind city s)) = sent s.
Proof.
  intros He Hf. pose proof (run_lookup_outcome kind city s) as O.
  destruct (run_lookup kind city s) as [r s']. simpl in *.
  inversion O; subst; try congruence.
  replace e0 with e in * by congruence. auto.
Qed.

(** Without a fresh entry exactly one request is sent. *)
Lemma lookup_fetches kind city s :
  fresh s (lookup_key kind city) = false ->
  sent (snd (run_lookup kind city s)) = sent s ++ [request_for s kind city].
Proof.
  intros Hf. pose proof (run_lookup_outcome kind city s) as O.
  destruct (run_lookup kind city s) as [r s']. simpl in *.
  inversion O; subst; congruence.
Qed.

(** A lookup either leaves the cache as it is or writes the entry of its
    own key. *)
Lemma lookup_cache kind city s :
  cache (self (snd (run_lookup kind city s))) = cache (self s)
  \/ exists info,
       fst (run_lookup kind city s) = Val info
       /\ fresh s (lookup_key kind city) = false
       /\ cache (self (snd (run_lookup kind city s)))
          = <[lookup_key kind city :=
                {| data := info;
                   timestamp := next_now (checked s (lookup_key kind city)) |}]>
              (cache (self s)).
Proof.
  pose proof (run_lookup_outcome kind city s) as O.
  destruct (run_lookup kind city s) as [r s']. simpl in *.
  inversion O; subst; try (left; congruence).
  right. eauto.
Qed.

Lemma lookup_cache_duration kind city s :
  cache_duration (self (snd (run_lookup kind city s))) = cache_duration (self s).
Proof.
  pose proof (run_lookup_outcome kind city s) as O.
  destruct (run_lookup kind city s) as [r s']. simpl in *.
  inversion O; subst; congruence.
Qed.

Lemma clear_cache_run s :
  cache (self (snd (clear_cache s))) = ∅
  /\ cache_duration (self (snd (clear_cache s))) = cache_duration (self s)
  /\ api_key (self (snd (clear_cache s))) = api_key (self s)
  /\ base_url (self (snd (clear_cache s))) = base_url (self s)
  /\ clock (snd (clear_cache s)) = clock s
  /\ reads (snd (clear_cache s)) = reads s
  /\ sent (snd (clear_cache s)) = sent s.
Proof. unfold clear_cache, set_cache. simpl. auto 10. Qed.

(** What a lookup without a fresh entry returns: the outcome of the fetch,
    never the stored value. *)
Lemma lookup_miss_result kind city s :
  fresh s (lookup_key kind city) = false ->
  (cache (self (snd (run_lookup kind city s))) = cache (self s)
   /\ (fst (run_lookup kind city s) = Val JNone
       \/ exists ex, fst (run_lookup kind city s) = Raise ex))
  \/ exists info,
       fst (run_lookup kind city s) = Val info
       /\ cache (self (snd (run_lookup kind city s))) !! lookup_key kind city
          = Some {| data := info;
                    timestamp := next_now (checked s (lookup_key kind city)) |}.
Proof.
  intros Hf. pose proof (run_lookup_outcome kind city s) as O.
  destruct (run_lookup kind city s) as [r s']. simpl in *.
  inversion O; subst; try congruence.
  - left. split; [congruence|auto].
  - left. split; [congruence|eauto].
  - right. exists info. split; [reflexivity|].
    match goal with Hc : cache (self s') = _ |- _ => rewrite Hc end.
    apply lookup_insert_eq.
Qed.

(** What a lookup without a fresh entry does, case by case of the body
    [d] that [_make_request] returns: a false body gives [None]; a true body
    on which the parser raises gives that exception; otherwise the parsed
    data are returned and stored under the key with the reading of the clock
    taken after the fetch. Only in the last case does the cache change. *)
Lemma lookup_miss_exact kind city s d :
  fresh s (lookup_key kind city) = false ->
  fst (_make_request (endpoint_of kind) [("q", city)]
         (checked s (lookup_key kind city))) = Val d ->
  if truthy d then
    match parser_of kind d with
    | Val info =>
        fst (run_lookup kind city s) = Val info
        /\ cache (self (snd (run_lookup kind city s)))
           = <[lookup_key kind city :=
                 {| data := info;
                    timestamp := next_now (checked s (lookup_key kind city)) |}]>
               (cache (self s))
    | Raise ex =>
        fst (run_lookup kind city s) = Raise ex
        /\ cache (self (snd (run_lookup kind city s))) = cache (self s)
    end
  else
    fst (run_lookup kind city s) = Val JNone
    /\ cache (self (snd (run_lookup kind city s))) = cache (self s).
Proof.
  intros Hf Hm. rewrite run_lookup_unfold.
  destruct (checked_frame (lookup_key kind city) s) as (Hs & Hc & _).
  destruct (make_request_run (endpoint_of kind) city
              (checked s (lookup_key kind city)))
    as (_ & Hs2 & Hc2 & Hr2 & _).
  destruct (get_or_fetch _ _ _ _ s) as [r s'] eqn:E. simpl.
  unfold get_or_fetch in E. unfold bind at 1 in E.
  rewrite is_cache_valid_run, Hf in E. unfold bind at 1 in E.
  destruct (_make_request _ _ (checked s (lookup_key kind city))) as [rq s2].
  simpl in Hm, Hs2, Hc2, Hr2. subst rq.
  destruct (truthy d); simpl in E.
  - unfold bind, lift in E. destruct (parser_of kind d) as [info|ex].
    + revert E. cbv [cache_store bind datetime_now get_self set_cache ret]. simpl.
      intros [= <- <-]. simpl. split; [reflexivity|].
      unfold next_now. now rewrite Hs2, Hs, Hc2, Hr2.
    + injection E as <- <-. split; [reflexivity|congruence].
  - unfold ret in E. injection E as <- <-. split; [reflexivity|congruence].
Qed.

(** ** The claims *)

(** C2. A lookup made when at least [cache_duration] seconds have elapsed
    since the time stamp of the entry at its key sends the request again,
    and the stored value is not served: what the lookup returns is decided
    by the body [d] that this fetch returns. A false body gives [None] and
    a body on which the parser raises gives that exception, the cache being
    left as it was; otherwise the lookup returns the data parsed from [d]
    and stores them at the key under the reading taken after the fetch. *)
Theorem stale_entry_is_refetched kind city s e :
  cache (self s) !! lookup_key kind city = Some e ->
  cache_duration (self s) * 1000000 <= next_now s - timestamp e ->
  sent (snd (run_lookup kind city s)) = sent s ++ [request_for s kind city]
  /\ exists d,
       fst (_make_request (endpoint_of kind) [("q", city)]
              (checked s (lookup_key kind city))) = Val d
       /\ if truthy d then
            match parser_of kind d with
            | Val info =>
                fst (run_lookup kind city s) = Val info
                /\ cache (self (snd (run_lookup kind city s)))
                   = <[lookup_key kind city :=
                         {| data := info; timestamp := clock s (S (reads s)) |}]>
                       (cache (self s))
            | Raise ex =>
                fst (run_lookup kind city s) = Raise ex
                /\ cache (self (snd (run_lookup kind city s))) = cache (self s)
            end
          else
            fst (run_lookup kind city s) = Val JNone
            /\ cache (self (snd (run_lookup kind city s))) = cache (self s).
Proof.
  intros He Hle.
  assert (Hf : fresh s (lookup_key kind city) = false)
    by (apply fresh_false; eauto).
  split; [now apply lookup_fetches|].
  destruct (make_request_run (endpoint_of kind) city
              (checked s (lookup_key kind city))) as ([d Hd] & _).
  exists d. split; [exact Hd|].
  pose proof (lookup_miss_exact kind city s d Hf Hd) as Hx.
  assert (Hnow : next_now (checked s (lookup_key kind city))
                 = clock s (S (reads s))).
  { unfold next_now. rewrite (checked_reads (lookup_key kind city) s), He.
    now destruct (checked_frame (lookup_key kind city) s) as (_ & -> & _). }
  rewrite Hnow in Hx. exact Hx.
Qed.

(** C9. At the edge of the window, when the elapsed time equals
    [cache_duration] exactly, [_is_cache_valid] answers [False] and the
    lookup sends the request. *)
Theorem window_edge_is_stale kind city s e :
  cache (self s) !! lookup_key kind city = Some e ->
  next_now s - timestamp e = cache_duration (self s) * 1000000 ->
  fst (_is_cache_valid (lookup_key kind city) s) = Val false
  /\ sent (snd (run_lookup kind city s)) = sent s ++ [request_for s kind city].
Proof.
  intros He Heq.
  assert (Hf : fresh s (lookup_key kind city) = false)
    by (apply fresh_false; right; exists e; split; [assumption|lia]).
  split; [|now apply lookup_fetches].
  rewrite is_cache_valid_run. simpl. now rewrite Hf.
Qed.

(** C3. When [_is_cache_valid] answers [False] and [_make_request] returns
    no data ([None], or any other false value), the lookup returns [None]
    and leaves the whole cache, the entry at its key included, as it was. *)
Theorem failed_fetch_returns_none kind city s d :
  fst (_is_cache_valid (lookup_key kind city) s) = Val false ->
  fst (_make_request (endpoint_of kind) [("q", city)]
         (snd (_is_cache_valid (lookup_key kind city) s))) = Val d ->
  truthy d = false ->
  fst (run_lookup kind city s) = Val JNone
  /\ cache (self (snd (run_lookup kind city s))) = cache (self s).
Proof.
  intros Hv Hm Ht. rewrite run_lookup_unfold.
  destruct (get_or_fetch _ _ _ _ s) as [r s'] eqn:E.
  unfold get_or_fetch in E. unfold bind at 1 in E.
  destruct (checked_frame (lookup_key kind city) s) as (Hs & _).
  destruct (make_request_run (endpoint_of kind) city (checked s (lookup_key kind city)))
    as (_ & Hs2 & _).
  fold (checked s (lookup_key kind city)) in Hm.
  rewrite is_cache_valid_run in E, Hv. simpl in Hv. injection Hv as Hv.
  rewrite Hv in E. unfold bind at 1 in E.
  destruct (_make_request _ _ (checked s (lookup_key kind city))) as [rq s2].
  simpl in *. subst rq. rewrite Ht in E. simpl in E. unfold ret in E.
  injection E as <- <-. simpl. split; [reflexivity|congruence].
Qed.

(** C5. [clear_cache()] leaves an empty cache, and the next lookup, of any
    key, sends its request. *)
Theorem clear_cache_forces_fetch kind city s :
  cache (self (snd (clear_cache s))) = ∅
  /\ sent (snd (run_lookup kind city (snd (clear_cache s))))
     = sent (snd (clear_cache s))
         ++ [request_for (snd (clear_cache s)) kind city].
Proof.
  destruct (clear_cache_run s) as (Hc & _). split; [exact Hc|].
  apply lookup_fetches. apply fresh_false. left. rewrite Hc. apply lookup_empty.
Qed.

(** C10. [get_current_weather(city)] changes no entry of the cache other
    than the one at ["current_" + city.lower()]: neither a forecast entry
    nor the current-weather entry of a city with another lower-cased name. *)
Theorem current_weather_frame city s :
  let s' := snd (get_current_weather city s) in
  (forall k, k <> current_key city ->
             cache (self s') !! k = cache (self s) !! k)
  /\ (forall city', cache (self s') !! forecast_key city'
                    = cache (self s) !! forecast_key city')
  /\ (forall city', Str.lower city' <> Str.lower city ->
                    cache (self s') !! current_key city'
                    = cache (self s) !! current_key city').
Proof.
  cbv zeta.
  assert (Hframe : forall k, k <> current_key city ->
            cache (self (snd (get_current_weather city s))) !! k
            = cache (self s) !! k).
  { intros k Hk.
    destruct (lookup_cache Current city s) as [Hc|(info & _ & _ & Hc)];
      simpl in Hc; rewrite Hc; [reflexivity|].
    now apply lookup_insert_ne. }
  split; [exact Hframe|]. split; intros city'; [|intros Hne]; apply Hframe.
  - unfold forecast_key, current_key. discriminate.
  - unfold current_key. intros [= Heq]. contradiction.
Qed.




(** Every call leaves the window as the constructor set it. *)
Lemma exec_cache_duration (c : Call) s :
  cache_duration (self (exec c s)) = cache_duration (self s).
Proof.
  destruct c as [kind city|].
  - apply lookup_cache_duration.
  - exact (proj1 (proj2 (clear_cache_run s))).
Qed.

Lemma exec_all_cache_duration (cs : list Call) s :
  cache_duration (self (exec_all cs s)) = cache_duration (self s).
Proof.
  revert s. induction cs as [|c cs IH]; intros s; [reflexivity|].
  simpl. fold (exec_all cs (exec c s)). now rewrite IH, exec_cache_duration.
Qed.

(** C8. The constructor sets the window to 600 seconds, no call of a method
    changes it, and in every state the client reaches the validity of any
    key is decided by its entry's time stamp against that one duration; an
    entry carries no duration of its own. *)
Theorem cache_duration_is_fixed key clk net (cs : list Call) k :
  let s := exec_all cs (start key clk net) in
  cache_duration (self (start key clk net)) = 600
  /\ cache_duration (self s) = 600
  /\ fst (_is_cache_valid k s)
     = Val (match cache (self s) !! k with
            | Some e => bool_decide (next_now s - timestamp e < 600 * 1000000)
            | None => false
            end).
Proof.
  cbv zeta.
  assert (Hd : cache_duration (self (exec_all cs (start key clk net))) = 600)
    by now rewrite exec_all_cache_duration.
  split; [reflexivity|]. split; [exact Hd|].
  rewrite is_cache_valid_run. simpl. unfold fresh, seconds_lt. now rewrite Hd.
Qed.

(** No call removes one entry and keeps the others: a lookup keeps every
    key, clearing leaves none. *)
Lemma exec_keeps_or_empties (c : Call) s :
  match c with
  | Lookup _ _ =>
      forall k, is_Some (cache (self s) !! k) ->
                is_Some (cache (self (exec c s)) !! k)
  | ClearCache => cache (self (exec c s)) = ∅
  end.
Proof.
  destruct c as [kind city|]; simpl.
  - intros k Hk.
    destruct (lookup_cache kind city s) as [Hc|(info & _ & _ & Hc)]; rewrite Hc.
    + exact Hk.
    + rewrite lookup_insert. case_decide; [eauto|exact Hk].
  - exact (proj1 (clear_cache_run s)).
Qed.

(** C4, as the code has it. The client has no operation that removes one
    entry: a lookup keeps every key that is in the cache, and the only
    removal, [clear_cache()], removes them all. After [clear_cache()] a
    lookup of any key sends its request. *)
Theorem removal_is_bulk_only (c : Call) s :
  match c with
  | Lookup _ _ =>
      forall k, is_Some (cache (self s) !! k) ->
                is_Some (cache (self (exec c s)) !! k)
  | ClearCache =>
      cache (self (exec c s)) = ∅
      /\ forall kind city,
           sent (exec (Lookup kind city) (exec c s))
           = sent (exec c s) ++ [request_for (exec c s) kind city]
  end.
Proof.
  pose proof (exec_keeps_or_empties c s) as Hc.
  destruct c as [kind city|]; [exact Hc|].
  split; [exact Hc|]. intros kind city.
  change (exec (Lookup kind city) (exec ClearCache s))
    with (snd (run_lookup kind city (exec ClearCache s))).
  apply lookup_fetches, fresh_false. left. rewrite Hc. apply lookup_empty.
Qed.

(** A lookup that returns data leaves that data in the cache under its
    key. *)
Lemma lookup_data_is_cached kind city s v :
  fst (run_lookup kind city s) = Val v ->
  v <> JNone ->
  exists e, cache (self (snd (run_lookup kind city s))) !! lookup_key kind city
            = Some e
            /\ data e = v.
Proof.
  intros Hr Hv. pose proof (run_lookup_outcome kind city s) as O.
  destruct (run_lookup kind city s) as [r s']. simpl in *. subst r.
  inversion O; subst; try congruence.
  - exists e. split; congruence.
  - match goal with Hc : cache (self s') = _ |- _ => rewrite Hc end.
    rewrite lookup_insert_eq. eauto.
Qed.

(** C1, as the code has it. When a lookup returns data (from a fresh entry
    or from a fetch that succeeded), the cache then holds that data under
    the key, and the same lookup made while less than [cache_duration]
    seconds have elapsed since that entry's time stamp sends no request and
    returns the same data. *)
Theorem cached_data_is_served_again kind city s v :
  fst (run_lookup kind city s) = Val v ->
  v <> JNone ->
  let s1 := snd (run_lookup kind city s) in
  exists e,
    cache (self s1) !! lookup_key kind city = Some e
    /\ data e = v
    /\ (next_now s1 - timestamp e < cache_duration (self s1) * 1000000 ->
        fst (run_lookup kind city s1) = Val v
        /\ sent (snd (run_lookup kind city s1)) = sent s1).
Proof.
  intros Hr Hv s1.
  destruct (lookup_data_is_cached kind city s v Hr Hv) as (e & He & Hd).
  exists e. split; [exact He|]. split; [exact Hd|]. intros Hlt.
  assert (Hf : fresh s1 (lookup_key kind city) = true)
    by (apply fresh_true; eauto).
  destruct (lookup_served kind city s1 e He Hf) as (Hr1 & _ & Hs1).
  split; [congruence|exact Hs1].
Qed.

(** ** Further properties of the client *)

(** *** [_make_request] *)

(** X1. [_make_request] never raises. Unless the response has status 200
    and a body that decodes, it returns [None] and prints exactly one line;
    it sends exactly one request and leaves the object as it is. *)
Theorem make_request_failure_is_none endpoint (ps : list (string * string)) s :
  (forall j, network s (length (sent s)) (request_built s endpoint ps)
             <> Response 200 (inr j)) ->
  fst (_make_request endpoint ps s) = Val JNone
  /\ (exists line, stdout (snd (_make_request endpoint ps s)) = stdout s ++ [line])
  /\ sent (snd (_make_request endpoint ps s))
     = sent s ++ [request_built s endpoint ps]
  /\ self (snd (_make_request endpoint ps s)) = self s.
Proof.
  unfold request_built, _make_request, bind, get_self, requests_get, print, ret.
  simpl. intros Hfail.
  destruct (network s _ _) as [code [msg|j]| | |msg]; simpl;
    repeat case_bool_decide; simpl; subst; eauto 10.
  now destruct (Hfail j).
Qed.

(** *** One lookup *)

(** The cache changes only by storing, under the key, what the parser made
    of a body that is true. *)
Lemma get_or_fetch_stores_parsed k endpoint city parse s :
  cache (self (snd (get_or_fetch k endpoint city parse s))) = cache (self s)
  \/ exists d info t,
       truthy d = true /\ parse d = Val info
       /\ fst (get_or_fetch k endpoint city parse s) = Val info
       /\ cache (self (snd (get_or_fetch k endpoint city parse s)))
          = <[k := {| data := info; timestamp := t |}]> (cache (self s)).
Proof.
  destruct (get_or_fetch k endpoint city parse s) as [r s'] eqn:E. simpl.
  revert E. unfold get_or_fetch, bind at 1. rewrite is_cache_valid_run.
  destruct (checked_frame k s) as (Hs & Hc & Hn & Hse & Ho).
  destruct (fresh s k).
  - cbv [bind print cached_data get_self ret raise]. simpl.
    destruct (cache (self (checked s k)) !! k); intros [= <- <-]; simpl;
      left; congruence.
  - destruct (make_request_run endpoint city (checked s k))
      as ([j Hj] & Hs2 & Hc2 & Hr2 & Hn2 & Hse2).
    unfold bind at 1.
    destruct (_make_request endpoint [("q", city)] (checked s k)) as [rq s2].
    simpl in *. subst rq.
    destruct (truthy j) eqn:Ht; simpl.
    + unfold bind, lift. destruct (parse j) as [info|ex] eqn:Hp; simpl.
      * cbv [cache_store bind datetime_now get_self set_cache ret]. simpl.
        intros [= <- <-]. simpl. right. exists j, info, (clock s2 (reads s2)).
        rewrite Hs2, Hs. auto.
      * intros [= <- <-]. left. congruence.
    + unfold ret. intros [= <- <-]. left. congruence.
Qed.

(** X2. When there is no fresh entry and the body fetched is true but the
    parser raises on it (a key is missing, a value has the wrong type), the
    exception leaves the method, the request has been sent and the cache is
    as it was. *)
Theorem parse_error_propagates kind city s d ex :
  fst (_is_cache_valid (lookup_key kind city) s) = Val false ->
  fst (_make_request (endpoint_of kind) [("q", city)]
         (snd (_is_cache_valid (lookup_key kind city) s))) = Val d ->
  truthy d = true ->
  parser_of kind d = Raise ex ->
  fst (run_lookup kind city s) = Raise ex
  /\ cache (self (snd (run_lookup kind city s))) = cache (self s)
  /\ sent (snd (run_lookup kind city s)) = sent s ++ [request_for s kind city].
Proof.
  intros Hv Hm Ht Hp.
  assert (Hf : fresh s (lookup_key kind city) = false).
  { rewrite is_cache_valid_run in Hv. simpl in Hv. congruence. }
  assert (Hr : fst (run_lookup kind city s) = Raise ex).
  { rewrite run_lookup_unfold.
    destruct (get_or_fetch _ _ _ _ s) as [r s'] eqn:E. simpl.
    unfold get_or_fetch in E. unfold bind at 1 in E.
    rewrite is_cache_valid_run in E, Hm. simpl in Hm. rewrite Hf in E.
    unfold bind at 1 in E.
    destruct (_make_request _ _ (checked s (lookup_key kind city))) as [rq s2].
    simpl in Hm. subst rq. rewrite Ht in E. simpl in E.
    unfold bind, lift in E. rewrite Hp in E. congruence. }
  split; [exact Hr|]. split; [|now apply lookup_fetches].
  destruct (lookup_cache kind city s) as [Hc|(info & Hi & _)]; [exact Hc|].
  congruence.
Qed.

(** X3. [get_forecast(city)] changes no entry of the cache other than the
    one at ["forecast_" + city.lower()]; the entries of current weather are
    all left alone. *)
Theorem forecast_frame city s :
  (forall k, k <> forecast_key city ->
             cache (self (snd (get_forecast city s))) !! k = cache (self s) !! k)
  /\ (forall city', cache (self (snd (get_forecast city s))) !! current_key city'
                    = cache (self s) !! current_key city').
Proof.
  assert (Hframe : forall k, k <> forecast_key city ->
            cache (self (snd (get_forecast city s))) !! k = cache (self s) !! k).
  { intros k Hk.
    destruct (lookup_cache Forecast city s) as [Hc|(info & _ & _ & Hc)];
      simpl in Hc; rewrite Hc; [reflexivity|].
    now apply lookup_insert_ne. }
  split; [exact Hframe|]. intros city'. apply Hframe.
  unfold forecast_key, current_key. discriminate.
Qed.

(** X4. A lookup never removes an entry and adds at most the one of its
    own key: the keys after it are the keys before it, with or without the
    key looked up, so the cache grows by at most one entry. *)
Theorem lookup_adds_at_most_one kind city s :
  dom (cache (self s)) ⊆ dom (cache (self (snd (run_lookup kind city s))))
  /\ dom (cache (self (snd (run_lookup kind city s))))
     ⊆ dom (cache (self s)) ∪ {[lookup_key kind city]}
  /\ (size (cache (self s)) <= size (cache (self (snd (run_lookup kind city s))))
      <= S (size (cache (self s))))%nat.
Proof.
  destruct (lookup_cache kind city s) as [Hc|(info & _ & _ & Hc)]; rewrite Hc.
  - split; [reflexivity|]. split; [apply union_subseteq_l|lia].
  - rewrite dom_insert_L, map_size_insert.
    split; [apply union_subseteq_r|]. split; [apply union_subseteq; split|].
    + apply union_subseteq_r.
    + apply union_subseteq_l.
    + destruct (cache (self s) !! lookup_key kind city); simpl; lia.
Qed.

(** X5. One lookup sends no request when the entry is fresh and exactly
    one otherwise (there is no retry), and it reads the clock at most
    twice. *)
Theorem lookup_sends_at_most_one kind city s :
  sent (snd (run_lookup kind city s))
  = sent s ++ (if fresh s (lookup_key kind city) then []
               else [request_for s kind city])
  /\ (reads s <= reads (snd (run_lookup kind city s)) <= reads s + 2)%nat.
Proof.
  pose proof (run_lookup_outcome kind city s) as O.
  pose proof (checked_reads (lookup_key kind city) s) as Hr.
  destruct (run_lookup kind city s) as [r s']. simpl in *.
  destruct (cache (self s) !! lookup_key kind city);
    inversion O; subst;
    repeat match goal with Hf : fresh _ _ = _ |- _ => rewrite Hf; clear Hf end;
    rewrite ?app_nil_r; split; try assumption; lia.
Qed.

(** X6. An entry whose time stamp is not before the next reading of the
    clock (the clock was set back after it was stored) counts as fresh: it
    is served, and no request is sent, until the clock has passed the time
    stamp by the whole window. *)
Theorem entry_from_the_future_is_served kind city s e :
  cache (self s) !! lookup_key kind city = Some e ->
  next_now s <= timestamp e ->
  0 < cache_duration (self s) ->
  fst (run_lookup kind city s) = Val (data e)
  /\ sent (snd (run_lookup kind city s)) = sent s
  /\ cache (self (snd (run_lookup kind city s))) = cache (self s).
Proof.
  intros He Hle Hpos.
  assert (Hf : fresh s (lookup_key kind city) = true).
  { apply fresh_true. exists e. split; [exact He|lia]. }
  destruct (lookup_served kind city s e He Hf) as (Hr & Hs & Hse).
  split; [exact Hr|]. split; [exact Hse|]. now rewrite Hs.
Qed.

(** *** Sequences of calls *)

Lemma exec_all_invariant (P : State -> Prop) :
  (forall c s, P s -> P (exec c s)) ->
  forall cs s, P s -> P (exec_all cs s).
Proof.
  intros Hstep cs. induction cs as [|c cs IH]; intros s Hs; [exact Hs|].
  simpl. fold (exec_all cs (exec c s)). apply IH, Hstep, Hs.
Qed.

Lemma lookup_identity kind city s :
  api_key (self (snd (run_lookup kind city s))) = api_key (self s)
  /\ base_url (self (snd (run_lookup kind city s))) = base_url (self s).
Proof.
  pose proof (run_lookup_outcome kind city s) as O.
  destruct (run_lookup kind city s) as [r s']. simpl in *.
  inversion O; subst; split; congruence.
Qed.

(** X7. Whatever methods are called, in whatever order, on a client
    constructed with [key], every request it has sent goes to the
    [weather] or the [forecast] endpoint of the fixed base URL, carries the
    city as given, that key and metric units, and has a timeout of ten
    seconds. *)
Theorem every_request_is_well_formed key clk net (cs : list Call) :
  Forall (client_request key) (sent (exec_all cs (start key clk net))).
Proof.
  assert (Hinv : forall s,
             api_key (self s) = key
             /\ base_url (self s) = "http://api.openweathermap.org/data/2.5"
             /\ Forall (client_request key) (sent s) ->
             Forall (client_request key) (sent (exec_all cs s))).
  { intros s Hs.
    apply (exec_all_invariant
             (fun s => api_key (self s) = key
                       /\ base_url (self s) = "http://api.openweathermap.org/data/2.5"
                       /\ Forall (client_request key) (sent s))); [|exact Hs].
    clear s Hs. intros [kind city|] s (Hk & Hu & Hall).
    - change (exec (Lookup kind city) s) with (snd (run_lookup kind city s)).
      destruct (lookup_identity kind city s) as (-> & ->).
      split; [exact Hk|]. split; [exact Hu|].
      destruct (fresh s (lookup_key kind city)) eqn:Hf.
      + apply fresh_true in Hf as Hf'. destruct Hf' as (e & He & _).
        now destruct (lookup_served kind city s e He Hf) as (_ & _ & ->).
      + rewrite (lookup_fetches kind city s Hf). apply Forall_app. split; [exact Hall|].
        constructor; [|constructor]. exists kind, city.
        unfold request_for. now rewrite Hk, Hu.
    - destruct (clear_cache_run s) as (_ & _ & Ha & Hb & _ & _ & Hse).
      change (exec ClearCache s) with (snd (clear_cache s)).
      rewrite Ha, Hb, Hse. auto. }
  apply Hinv. simpl. auto.
Qed.

(** What the two parsers return is a dict with entries, hence true. *)
Lemma parsed_is_truthy kind d info :
  parser_of kind d = Val info -> truthy info = true.
Proof.
  destruct kind; simpl.
  - unfold weather_info_of, res_bind. repeat case_match; try discriminate.
    now intros [= <-].
  - unfold forecast_info_of, res_bind. repeat case_match; try discriminate.
    now intros [= <-].
Qed.

(** X8. The cache never holds a failure: whatever methods are called on a
    new client, the data of every entry is a true value (a dict with
    entries), so a lookup served from the cache never returns [None]. *)
Theorem cached_data_is_never_none key clk net (cs : list Call) k e :
  cache (self (exec_all cs (start key clk net))) !! k = Some e ->
  truthy (data e) = true /\ data e <> JNone.
Proof.
  intros He.
  assert (Ht : truthy (data e) = true).
  { revert k e He.
    apply (exec_all_invariant
             (fun s => forall k e, cache (self s) !! k = Some e ->
                                   truthy (data e) = true)).
    - intros [kind city|] s Hs k e.
      + change (exec (Lookup kind city) s) with (snd (run_lookup kind city s)).
        rewrite run_lookup_unfold.
        destruct (get_or_fetch_stores_parsed (lookup_key kind city)
                    (endpoint_of kind) city (parser_of kind) s)
          as [Hc|(d & info & t & _ & Hp & _ & Hc)]; rewrite Hc.
        * apply Hs.
        * rewrite lookup_insert. case_decide; [|apply Hs].
          intros [= <-]. simpl. eapply parsed_is_truthy, Hp.
      + change (exec ClearCache s) with (snd (clear_cache s)).
        destruct (clear_cache_run s) as (-> & _). now rewrite lookup_empty.
    - intros k e. simpl. now rewrite lookup_empty. }
  split; [exact Ht|]. intros Hn. rewrite Hn in Ht. discriminate.
Qed.

(** X9. Every time stamp in the cache is a reading the clock has given to
    this client; so under a clock that never runs backwards no entry is
    stamped later than the next reading, and the elapsed time that
    [_is_cache_valid] computes is never negative. *)
Theorem timestamps_are_past_readings key clk net (cs : list Call) k e :
  cache (self (exec_all cs (start key clk net))) !! k = Some e ->
  (exists i, (i < reads (exec_all cs (start key clk net)))%nat
             /\ timestamp e = clk i)
  /\ ((forall i j, (i <= j)%nat -> clk i <= clk j) ->
      0 <= next_now (exec_all cs (start key clk net)) - timestamp e).
Proof.
  intros He.
  assert (Hinv : clock (exec_all cs (start key clk net)) = clk
                 /\ forall k e,
                      cache (self (exec_all cs (start key clk net))) !! k = Some e ->
                      exists i, (i < reads (exec_all cs (start key clk net)))%nat
                                /\ timestamp e = clk i).
  { apply (exec_all_invariant
             (fun s => clock s = clk
                       /\ forall k e, cache (self s) !! k = Some e ->
                                      exists i, (i < reads s)%nat
                                                /\ timestamp e = clk i)).
    - intros [kind city|] s (Hclk & Hs).
      + change (exec (Lookup kind city) s) with (snd (run_lookup kind city s)).
        destruct (run_lookup_env kind city s) as (Hc & _).
        split; [congruence|]. intros k0 e0.
        pose proof (run_lookup_outcome kind city s) as O.
        pose proof (checked_reads (lookup_key kind city) s) as Hr.
        destruct (checked_frame (lookup_key kind city) s) as (_ & Hck & _).
        destruct (run_lookup kind city s) as [r s']. simpl in *.
        assert (Hge : (reads s <= reads (checked s (lookup_key kind city)))%nat)
          by (destruct (cache (self s) !! lookup_key kind city); lia).
        inversion O; subst.
        * replace (self s') with (self s) by congruence. intros Hk.
          destruct (Hs _ _ Hk) as (i & Hi & Hts). exists i. split; [lia|exact Hts].
        * replace (self s') with (self s) by congruence. intros Hk.
          destruct (Hs _ _ Hk) as (i & Hi & Hts). exists i. split; [lia|exact Hts].
        * replace (self s') with (self s) by congruence. intros Hk.
          destruct (Hs _ _ Hk) as (i & Hi & Hts). exists i. split; [lia|exact Hts].
        * match goal with Hcache : cache (self s') = _ |- _ => rewrite Hcache end.
          rewrite lookup_insert. case_decide.
          -- intros [= <-]. simpl. exists (reads (checked s (lookup_key kind city))).
             split; [lia|]. unfold next_now. now rewrite Hck.
          -- intros Hk. destruct (Hs _ _ Hk) as (i & Hi & Hts).
             exists i. split; [lia|exact Hts].
      + change (exec ClearCache s) with (snd (clear_cache s)).
        destruct (clear_cache_run s) as (Hc & _ & _ & _ & Hk & _).
        split; [congruence|]. intros k0 e0. now rewrite Hc, lookup_empty.
    - split; [reflexivity|]. intros k0 e0. simpl. now rewrite lookup_empty. }
  destruct Hinv as (Hclk & Hall). destruct (Hall k e He) as (i & Hi & Hts).
  split; [eauto|]. intros Hmono. unfold next_now. rewrite Hclk, Hts.
  assert (clk i <= clk (reads (exec_all cs (start key clk net))))
    by (apply Hmono; lia).
  lia.
Qed.

(** *** The forecast loop *)

Lemma forecast_loop_length items acc pd fs :
  (length acc < 5)%nat ->
  forecast_loop items acc pd = Val fs ->
  (length fs <= 5)%nat.
Proof.
  revert acc pd. induction items as [|item rest IH]; intros acc pd Hlen; simpl.
  - intros [= <-]. lia.
  - unfold res_bind.
    destruct (getitem item "dt") as [dt|]; [|discriminate].
    destruct (py_fromtimestamp dt) as [date_time|]; [|discriminate].
    destruct (negb _ && _).
    + destruct (forecast_of item date_time) as [forecast|]; [|discriminate].
      simpl. rewrite length_app. simpl. case_bool_decide.
      * intros [= <-]. rewrite length_app. simpl. lia.
      * apply IH. rewrite length_app. simpl. lia.
    + simpl. case_bool_decide; [intros [= <-]; lia|]. now apply IH.
Qed.

(** X10. A forecast that [get_forecast] builds is a dict of the city name
    and a list of at most five daily forecasts, however long the list of
    the response is. *)
Theorem forecast_has_at_most_five_days data info :
  forecast_info_of data = Val info ->
  exists name forecasts,
    info = JDict [("city", name); ("forecasts", JList forecasts)]
    /\ (length forecasts <= 5)%nat.
Proof.
  unfold forecast_info_of, res_bind.
  destruct (getitem data "list") as [lst|]; [|discriminate].
  destruct (py_iter lst) as [items|]; [|discriminate].
  destruct (forecast_loop items [] ∅) as [fs|] eqn:Hloop; [|discriminate].
  destruct (getitem data "city") as [city|]; [|discriminate].
  destruct (getitem city "name") as [name|]; [|discriminate].
  intros [= <-]. exists name, fs. split; [reflexivity|].
  eapply forecast_loop_length; [|exact Hloop]. simpl. lia.
Qed.

(** X11. Only the items whose local time is at 12 o'clock are kept: when
    no item of the response falls on that hour (as in a time zone where the
    three-hourly steps of the service miss noon), the loop adds nothing,
    without an error. *)
Theorem forecast_without_noon_is_empty items acc pd :
  Forall off_noon items ->
  forecast_loop items acc pd = Val acc.
Proof.
  intros Hall. revert acc pd.
  induction Hall as [|item rest (dt & date_time & Hdt & Hlt & Hh) _ IH];
    intros acc pd; simpl; [reflexivity|].
  rewrite Hdt. simpl. rewrite Hlt. simpl.
  rewrite (bool_decide_eq_false_2 _ Hh), andb_false_r. simpl.
  case_bool_decide; [reflexivity|apply IH].
Qed.

Lemma forecast_loop_picks (all : list Json) items acc pd fs
      (picks0 : list (Json * LocalTime)) :
  (forall x, In x items -> In x all) ->
  Forall2 picked_at_noon picks0 acc ->
  Forall (fun p => In (fst p) all) picks0 ->
  NoDup (map (fun p => date_str (snd p)) picks0) ->
  (forall p, In p picks0 -> date_str (snd p) ∈ pd) ->
  forecast_loop items acc pd = Val fs ->
  exists picks,
    Forall2 picked_at_noon picks fs
    /\ Forall (fun p => In (fst p) all) picks
    /\ NoDup (map (fun p => date_str (snd p)) picks).
Proof.
  revert acc pd picks0.
  induction items as [|item rest IH]; intros acc pd picks0 Hsub Hacc Hall Hnd Hpd;
    simpl.
  - intros [= <-]. eauto.
  - assert (Hsub' : forall x, In x rest -> In x all)
      by (intros x Hx; apply Hsub; now right).
    unfold res_bind.
    destruct (getitem item "dt") as [dt|] eqn:Hdt; [|discriminate].
    destruct (py_fromtimestamp dt) as [date_time|] eqn:Hlt; [|discriminate].
    destruct (negb _ && _) eqn:Hsel.
    + apply andb_true_iff in Hsel as [Hnew Hnoon].
      apply negb_true_iff, bool_decide_eq_false in Hnew.
      apply bool_decide_eq_true in Hnoon.
      destruct (forecast_of item date_time) as [forecast|] eqn:Hf; [|discriminate].
      simpl.
      assert (Hacc' : Forall2 picked_at_noon (picks0 ++ [(item, date_time)])
                              (acc ++ [forecast])).
      { apply Forall2_app; [exact Hacc|]. constructor; [|constructor].
        unfold picked_at_noon. simpl. eauto. }
      assert (Hall' : Forall (fun p => In (fst p) all)
                             (picks0 ++ [(item, date_time)])).
      { apply Forall_app. split; [exact Hall|]. constructor; [|constructor].
        simpl. apply Hsub. now left. }
      assert (Hnd' : NoDup (map (fun p => date_str (snd p))
                                (picks0 ++ [(item, date_time)]))).
      { rewrite map_app. simpl. apply NoDup_app. split; [exact Hnd|]. split.
        - intros d Hd Hd'. apply list_elem_of_singleton in Hd'. subst d.
          apply list_elem_of_In, in_map_iff in Hd. destruct Hd as (p & Hp & Hin).
          apply Hnew. rewrite <- Hp. now apply Hpd.
        - apply NoDup_singleton. }
      case_bool_decide.
      * intros [= <-]. eauto.
      * apply (IH _ _ _ Hsub' Hacc' Hall' Hnd'). intros p Hin.
        apply in_app_or in Hin. destruct Hin as [Hin|[<-|[]]].
        -- apply elem_of_union_l. now apply Hpd.
        -- apply elem_of_union_r. simpl. now apply elem_of_singleton.
    + clear Hsel. simpl. case_bool_decide; [intros [= <-]; eauto|].
      now apply (IH _ _ _ Hsub' Hacc Hall Hnd).
Qed.

(** X12. Each forecast the loop returns is made of an item of the response
    whose time stamp decodes to a local time at 12 o'clock, and no two of
    them come from the same calendar day. *)
Theorem forecast_is_one_per_day_at_noon items fs :
  forecast_loop items [] ∅ = Val fs ->
  exists picks,
    Forall2 picked_at_noon picks fs
    /\ Forall (fun p => In (fst p) items) picks
    /\ NoDup (map (fun p => date_str (snd p)) picks).
Proof.
  apply (forecast_loop_picks items items [] ∅ fs []).
  - auto.
  - constructor.
  - constructor.
  - constructor.
  - intros p [].
Qed.

End Properties.

(** ** The favourites store *)

Module DataStorageFacts.

Import DataStorage.

Section StoreProperties.

Context `{PyNum} `{PyText}.

Implicit Types (s : State) (city key : string).

Lemma dict_get_set_eq k v (items : list (string * Json)) :
  dict_get k (dict_set k v items) = Some v.
Proof.
  induction items as [|[k' v'] rest IH]; simpl.
  - now rewrite bool_decide_eq_true_2.
  - case_bool_decide; simpl.
    + now rewrite bool_decide_eq_true_2.
    + now rewrite bool_decide_eq_false_2.
Qed.

Lemma dict_get_set_ne k k' v (items : list (string * Json)) :
  k' <> k -> dict_get k' (dict_set k v items) = dict_get k' items.
Proof.
  intros Hne. induction items as [|[k0 v0] rest IH]; simpl.
  - rewrite bool_decide_eq_false_2; [reflexivity|congruence].
  - case_bool_decide; simpl.
    + subst k0. rewrite !bool_decide_eq_false_2; congruence.
    + now rewrite IH.
Qed.

Lemma dict_set_set k v v' (items : list (string * Json)) :
  dict_set k v (dict_set k v' items) = dict_set k v items.
Proof.
  induction items as [|[k0 v0] rest IH]; simpl.
  - now rewrite bool_decide_eq_true_2.
  - case_bool_decide; simpl.
    + now rewrite bool_decide_eq_true_2.
    + rewrite bool_decide_eq_false_2 by assumption. now rewrite IH.
Qed.

(** [_save_data()] makes one attempt to write the current data, reports
    whether it went through, and leaves the object as it is. *)
Lemma save_data_run s :
  fst (_save_data JNone s)
  = Done (match disk s (length (attempts s)) with
          | WriteOk => true
          | WriteError _ => false
          end)
  /\ self (snd (_save_data JNone s)) = self s
  /\ attempts (snd (_save_data JNone s)) = attempts s ++ [data (self s)]
  /\ disk (snd (_save_data JNone s)) = disk s.
Proof.
  cbv [_save_data bind get_data write_file print ret]. simpl.
  destruct (disk s (length (attempts s))); simpl; auto.
Qed.

Lemma existsb_eq_str_app city (l : list Json) :
  existsb (eq_str city) (l ++ [JStr city]) = true.
Proof.
  rewrite existsb_app. simpl. rewrite bool_decide_eq_true_2 by reflexivity.
  now rewrite orb_true_r.
Qed.

(** What [add_favorite] does to a dict of data whose favourites do not
    hold the city yet. *)
Lemma add_favorite_run city s items (l : list Json) :
  data (self s) = JDict items ->
  match dict_get "favorites" items with Some v => v | None => JList [] end
  = JList l ->
  existsb (eq_str (title (Str.strip city))) l = false ->
  let s1 := snd (set_data (JDict (dict_set "favorites"
                                    (JList (l ++ [JStr (title (Str.strip city))]))
                                    items)) s) in
  add_favorite city s = _save_data JNone s1.
Proof.
  intros Hd Hl Hin.
  cbv [add_favorite get_favorites bind lift get_data py_get]. simpl.
  rewrite Hd, Hl. simpl. rewrite Hin. simpl. rewrite Hd. reflexivity.
Qed.

Lemma classic_list (v : Json) :
  (exists l, v = JList l) \/ (forall l, v <> JList l).
Proof. destruct v; eauto; right; discriminate. Qed.

Lemma is_favorite_run city s :
  is_favorite city s
  = (match py_get (data (self s)) "favorites" (JList []) with
     | Done favorites => py_in (title (Str.strip city)) favorites
     | Failed e => Failed e
     end, s).
Proof.
  cbv [is_favorite get_favorites bind lift get_data].
  now destruct (py_get (data (self s)) "favorites" (JList [])).
Qed.

(** When the city is there already, or the favourites are not a list,
    [add_favorite] stops before it changes anything. *)
Lemma add_favorite_stops city s :
  (forall l, py_get (data (self s)) "favorites" (JList []) = Done (JList l) ->
             existsb (eq_str (title (Str.strip city))) l = true) ->
  snd (add_favorite city s) = s
  /\ (forall b, fst (add_favorite city s) = Done b ->
                b = false
                /\ fst (is_favorite city s) = Done true).
Proof.
  intros Hin. rewrite is_favorite_run.
  cbv [add_favorite get_favorites bind lift get_data ret]. simpl.
  destruct (py_get (data (self s)) "favorites" (JList [])) as [fav|e];
    [|split; [reflexivity|discriminate]].
  destruct fav as [| | | |l|kv]; simpl;
    try (split; [reflexivity|discriminate]).
  - destruct (contains s0 _); simpl; split; try reflexivity;
      intros b; try discriminate. now intros [= <-].
  - rewrite (Hin l eq_refl). simpl. split; [reflexivity|].
    intros b [= <-]. auto.
  - destruct (existsb _ kv); simpl; split; try reflexivity;
      intros b; try discriminate. now intros [= <-].
Qed.

(** X15. Whenever [add_favorite(city)] returns, with [True] or with
    [False], the city is a favourite afterwards, under any spelling that
    [strip().title()] maps to the same name. *)
Theorem added_city_is_favorite city city' s b :
  fst (add_favorite city s) = Done b ->
  title (Str.strip city') = title (Str.strip city) ->
  fst (is_favorite city' (snd (add_favorite city s))) = Done true.
Proof.
  intros Hr Heq.
  assert (Hsame : forall s', is_favorite city' s' = is_favorite city s').
  { intros s'. now rewrite !is_favorite_run, Heq. }
  rewrite Hsame. clear Hsame Heq city'.
  destruct (py_get (data (self s)) "favorites" (JList [])) as [fav|e] eqn:Hg.
  - destruct (classic_list fav) as [(l & ->)|Hnl].
    + destruct (existsb (eq_str (title (Str.strip city))) l) eqn:Hin.
      * destruct (add_favorite_stops city s) as (Hs & Hb).
        { intros l' Hl'. rewrite Hg in Hl'. now injection Hl' as <-. }
        rewrite Hs. now destruct (Hb b Hr).
      * destruct (data (self s)) as [| | | | |items] eqn:Hd; try discriminate.
        simpl in Hg. injection Hg as Hg.
        rewrite (add_favorite_run city s items l Hd Hg Hin).
        rewrite is_favorite_run.
        destruct (save_data_run
                    (snd (set_data (JDict (dict_set "favorites"
                            (JList (l ++ [JStr (title (Str.strip city))])) items)) s)))
          as (_ & -> & _).
        simpl. rewrite dict_get_set_eq. simpl.
        now rewrite existsb_eq_str_app.
    + destruct (add_favorite_stops city s) as (Hs & Hb).
      { intros l' Hl'. rewrite Hg in Hl'. injection Hl' as ->.
        now destruct (Hnl l'). }
      rewrite Hs. now destruct (Hb b Hr).
  - exfalso. revert Hr.
    cbv [add_favorite get_favorites bind lift get_data]. simpl.
    now rewrite Hg.
Qed.

(** X16. [add_favorite] of a city that is a favourite already returns
    [False] and does nothing: the data are unchanged and the file is not
    written. *)
Theorem add_existing_is_refused city s :
  fst (is_favorite city s) = Done true ->
  add_favorite city s = (Done false, s).
Proof.
  rewrite is_favorite_run. simpl.
  cbv [add_favorite get_favorites bind lift get_data ret]. simpl.
  destruct (py_get (data (self s)) "favorites" (JList [])) as [fav|e];
    [|discriminate].
  intros ->. reflexivity.
Qed.

Lemma favorite_list_get s (l : list Json) :
  favorite_list s = Some l ->
  exists items,
    data (self s) = JDict items
    /\ match dict_get "favorites" items with Some v => v | None => JList [] end
       = JList l.
Proof.
  unfold favorite_list. destruct (data (self s)) as [| | | | |items]; try discriminate.
  intros Hl. exists items. split; [reflexivity|].
  destruct (dict_get "favorites" items) as [[| | | |l'|]|]; try discriminate;
    now injection Hl as <-.
Qed.

(** X17. [add_favorite] of a city that the list of favourites does not
    hold appends its normalised name at the end, makes one attempt to write
    the file with the new data, and returns whether that attempt went
    through: when it fails, [False] is returned although the city has been
    added in memory. *)
Theorem add_appends_and_saves city s (l : list Json) :
  favorite_list s = Some l ->
  existsb (eq_str (title (Str.strip city))) l = false ->
  favorite_list (snd (add_favorite city s))
  = Some (l ++ [JStr (title (Str.strip city))])
  /\ fst (add_favorite city s)
     = Done (match disk s (length (attempts s)) with
             | WriteOk => true
             | WriteError _ => false
             end)
  /\ attempts (snd (add_favorite city s))
     = attempts s ++ [data (self (snd (add_favorite city s)))].
Proof.
  intros Hl Hin. destruct (favorite_list_get s l Hl) as (items & Hd & Hg).
  rewrite (add_favorite_run city s items l Hd Hg Hin).
  match goal with |- context [_save_data JNone ?s1] =>
    destruct (save_data_run s1) as (Hr & Hs & Hdu & _) end.
  rewrite Hr, Hdu. unfold favorite_list. rewrite Hs. simpl.
  rewrite dict_get_set_eq. auto.
Qed.

Lemma existsb_eq_str_In city (l : list Json) :
  existsb (eq_str city) l = true <-> In (JStr city) l.
Proof.
  rewrite existsb_exists. split.
  - intros (x & Hx & He). destruct x; try discriminate.
    simpl in He. apply bool_decide_eq_true in He. now subst.
  - intros Hx. exists (JStr city). split; [exact Hx|].
    simpl. now rewrite bool_decide_eq_true_2.
Qed.

(** X18. [add_favorite] keeps a list of favourites free of duplicates. *)
Theorem favorites_stay_distinct city s (l : list Json) :
  favorite_list s = Some l ->
  NoDup l ->
  exists l', favorite_list (snd (add_favorite city s)) = Some l' /\ NoDup l'.
Proof.
  intros Hl Hnd.
  destruct (existsb (eq_str (title (Str.strip city))) l) eqn:Hin.
  - destruct (favorite_list_get s l Hl) as (items & Hd & Hg).
    destruct (add_favorite_stops city s) as (-> & _); [|eauto].
    intros l'. rewrite Hd. simpl. rewrite Hg. now intros [= <-].
  - destruct (favorite_list_get s l Hl) as (items & Hd & Hg).
    rewrite (add_favorite_run city s items l Hd Hg Hin).
    match goal with |- context [_save_data JNone ?s1] =>
      destruct (save_data_run s1) as (_ & Hs & _) end.
    unfold favorite_list. rewrite Hs. simpl. rewrite dict_get_set_eq.
    eexists. split; [reflexivity|].
    apply NoDup_app. split; [exact Hnd|]. split; [|apply NoDup_singleton].
    intros x Hx Hx'. apply list_elem_of_singleton in Hx'. subst x.
    apply list_elem_of_In, existsb_eq_str_In in Hx. congruence.
Qed.

(** What [remove_favorite] does to a dict of data whose list of favourites
    holds the city. *)
Lemma remove_favorite_run city s items (l l' : list Json) :
  data (self s) = JDict items ->
  match dict_get "favorites" items with Some v => v | None => JList [] end
  = JList l ->
  remove_first (title (Str.strip city)) l = Some l' ->
  remove_favorite city s
  = _save_data JNone
      (snd (set_data (JDict (dict_set "favorites" (JList l') items)) s)).
Proof.
  intros Hd Hl Hrm.
  assert (Hin : existsb (eq_str (title (Str.strip city))) l = true).
  { clear Hl. revert l' Hrm. induction l as [|x l IH]; simpl; [discriminate|].
    intros l'. destruct (eq_str _ x); [reflexivity|].
    destruct (remove_first _ l) as [r|]; [|discriminate].
    intros _. simpl. eapply IH. reflexivity. }
  cbv [remove_favorite get_favorites bind lift get_data py_get]. simpl.
  rewrite Hd, Hl. simpl. rewrite Hin. simpl. rewrite Hrm, Hd. reflexivity.
Qed.

Lemma remove_first_app city (l : list Json) :
  existsb (eq_str city) l = false ->
  remove_first city (l ++ [JStr city]) = Some l.
Proof.
  induction l as [|x l IH]; simpl.
  - now rewrite bool_decide_eq_true_2.
  - destruct (eq_str city x); [discriminate|]. simpl. intros Hin.
    now rewrite (IH Hin).
Qed.

(** X19. Removing a city right after it was added gives back the list of
    favourites as it was. *)
Theorem remove_undoes_add city s (l : list Json) :
  favorite_list s = Some l ->
  existsb (eq_str (title (Str.strip city))) l = false ->
  favorite_list (snd (remove_favorite city (snd (add_favorite city s)))) = Some l.
Proof.
  intros Hl Hin. destruct (favorite_list_get s l Hl) as (items & Hd & Hg).
  rewrite (add_favorite_run city s items l Hd Hg Hin).
  match goal with |- context [_save_data JNone ?s1] =>
    destruct (save_data_run s1) as (_ & Hs & _); set (s2 := snd (_save_data JNone s1)) in *
  end.
  assert (Hd2 : data (self s2)
                = JDict (dict_set "favorites"
                           (JList (l ++ [JStr (title (Str.strip city))])) items))
    by now rewrite Hs.
  rewrite (remove_favorite_run city s2 _ (l ++ [JStr (title (Str.strip city))]) l Hd2).
  - match goal with |- context [_save_data JNone ?s3] =>
      destruct (save_data_run s3) as (_ & Hs3 & _) end.
    unfold favorite_list. rewrite Hs3. simpl. now rewrite dict_get_set_eq.
  - now rewrite dict_get_set_eq.
  - now apply remove_first_app.
Qed.

(** X20. [remove_favorite] of a city that is not a favourite returns
    [False] and does nothing: the data are unchanged and the file is not
    written. *)
Theorem remove_absent_is_refused city s :
  fst (is_favorite city s) = Done false ->
  remove_favorite city s = (Done false, s).
Proof.
  rewrite is_favorite_run. simpl.
  cbv [remove_favorite get_favorites bind lift get_data ret]. simpl.
  destruct (py_get (data (self s)) "favorites" (JList [])) as [fav|e];
    [|discriminate].
  intros ->. reflexivity.
Qed.

Lemma remove_first_gone city (l l' : list Json) :
  NoDup l ->
  remove_first city l = Some l' ->
  existsb (eq_str city) l' = false.
Proof.
  intros Hnd. revert l'. induction Hnd as [|x l Hx Hnd IH]; simpl; [discriminate|].
  intros l'. destruct (eq_str city x) eqn:Hex.
  - intros [= <-]. apply not_true_iff_false. intros Hin.
    apply existsb_eq_str_In in Hin. destruct x; try discriminate.
    simpl in Hex. apply bool_decide_eq_true in Hex. subst.
    apply Hx. now apply list_elem_of_In.
  - destruct (remove_first city l) as [r|]; [|discriminate].
    intros [= <-]. simpl. rewrite Hex. simpl. now apply IH.
Qed.

(** X21. On a list of favourites without duplicates, a city is no longer a
    favourite after [remove_favorite]; [list.remove] takes out the first
    occurrence only, so the list must hold the name once. *)
Theorem removed_city_is_gone city s (l : list Json) :
  favorite_list s = Some l ->
  NoDup l ->
  fst (is_favorite city (snd (remove_favorite city s))) = Done false.
Proof.
  intros Hl Hnd. destruct (favorite_list_get s l Hl) as (items & Hd & Hg).
  destruct (remove_first (title (Str.strip city)) l) as [l'|] eqn:Hrm.
  - rewrite (remove_favorite_run city s items l l' Hd Hg Hrm), is_favorite_run.
    match goal with |- context [_save_data JNone ?s1] =>
      destruct (save_data_run s1) as (_ & -> & _) end.
    simpl. rewrite dict_get_set_eq. simpl.
    now rewrite (remove_first_gone _ l l' Hnd Hrm).
  - assert (Hin : existsb (eq_str (title (Str.strip city))) l = false).
    { clear Hg Hnd Hl. induction l as [|x l IH]; simpl; [reflexivity|].
      simpl in Hrm. destruct (eq_str _ x); [discriminate|].
      destruct (remove_first _ l); [discriminate|]. now apply IH. }
    assert (Hrun : remove_favorite city s = (Done false, s)).
    { cbv [remove_favorite get_favorites bind lift get_data py_get ret]. simpl.
      rewrite Hd, Hg. simpl. now rewrite Hin. }
    rewrite Hrun. simpl. rewrite is_favorite_run, Hd. simpl. rewrite Hg. simpl.
    now rewrite Hin.
Qed.

Lemma get_setting_run key (default : Json) s :
  get_setting key default s
  = (match py_get (data (self s)) "settings" (JDict []) with
     | Done settings => py_get settings key default
     | Failed e => Failed e
     end, s).
Proof.
  cbv [get_setting bind lift get_data].
  now destruct (py_get (data (self s)) "settings" (JDict [])).
Qed.

Lemma existsb_key_get key (items : list (string * Json)) :
  existsb (fun kv => bool_decide (fst kv = key)) items = true
  <-> is_Some (dict_get key items).
Proof.
  induction items as [|[k v] rest IH]; simpl.
  - split; [discriminate|]. intros [x Hx]. discriminate.
  - case_bool_decide; simpl; [|exact IH]. split; eauto.
Qed.

(** What [set_setting] does when it returns: the data are a dict, the
    settings in it (or an empty dict, if there are none) take the value
    under the key. *)
Lemma set_setting_run key (value : Json) s b :
  fst (set_setting key value s) = Done b ->
  exists items settings,
    data (self s) = JDict items
    /\ match dict_get "settings" items with Some v => v | None => JDict [] end
       = JDict settings
    /\ data (self (snd (set_setting key value s)))
       = JDict (dict_set "settings" (JDict (dict_set key value settings)) items).
Proof.
  cbv [set_setting bind lift get_data ret]. simpl.
  destruct (data (self s)) as [| |n|str|l|items] eqn:Hd; simpl;
    try discriminate.
  - destruct (contains str "settings"); simpl; rewrite ?Hd; simpl; discriminate.
  - destruct (existsb (eq_str "settings") l); simpl; rewrite ?Hd; simpl;
      discriminate.
  - destruct (existsb _ items) eqn:Hin; simpl.
    + rewrite Hd. unfold py_getitem. simpl.
      apply existsb_key_get in Hin. destruct Hin as [v Hv]. rewrite Hv.
      destruct v as [| | | | |settings]; simpl; try discriminate.
      match goal with |- context [_save_data JNone ?s1] =>
        destruct (save_data_run s1) as (_ & Hs & _) end.
      intros _. exists items, settings. rewrite Hs. simpl.
      now rewrite Hv.
    + assert (Hnone : dict_get "settings" items = None).
      { destruct (dict_get "settings" items) eqn:Hg; [|reflexivity].
        assert (is_Some (dict_get "settings" items)) as Hs by eauto.
        apply existsb_key_get in Hs. congruence. }
      unfold py_getitem. simpl. rewrite dict_get_set_eq. simpl.
      match goal with |- context [_save_data JNone ?s1] =>
        destruct (save_data_run s1) as (_ & Hs & _) end.
      intros _. exists items, []. rewrite Hs, Hnone. simpl.
      split; [reflexivity|]. split; [reflexivity|].
      now rewrite dict_set_set.
Qed.

(** X23. When [set_setting(key, value)] returns, [get_setting(key)]
    returns that value, and every other key reads as before. *)
Theorem setting_round_trip key (value default : Json) s b :
  fst (set_setting key value s) = Done b ->
  fst (get_setting key default (snd (set_setting key value s))) = Done value
  /\ forall key', key' <> key ->
       fst (get_setting key' default (snd (set_setting key value s)))
       = fst (get_setting key' default s).
Proof.
  intros Hr. destruct (set_setting_run key value s b Hr)
    as (items & settings & Hd & Hs & Hd').
  rewrite !get_setting_run, Hd'. simpl. rewrite dict_get_set_eq. simpl.
  split; [now rewrite dict_get_set_eq|].
  intros key' Hne. rewrite !get_setting_run, Hd', Hd. simpl.
  rewrite dict_get_set_eq, Hs. simpl. now rewrite dict_get_set_ne.
Qed.

(** X24. When [set_default_city(city)] returns, [get_default_city()]
    returns the city's normalised name. *)
Theorem default_city_round_trip city s b :
  fst (set_default_city city s) = Done b ->
  fst (get_default_city (snd (set_default_city city s)))
  = Done (JStr (title (Str.strip city))).
Proof.
  unfold set_default_city. intros Hr.
  destruct (set_setting_run _ _ s b Hr) as (items & settings & Hd & Hs & Hd').
  cbv [get_default_city bind lift get_data]. rewrite Hd'. simpl.
  rewrite dict_get_set_eq. simpl. now rewrite dict_get_set_eq.
Qed.

(** X25. When [clear_favorites()] returns, no city is a favourite and the
    list is empty, while the settings read as before. *)
Theorem clear_favorites_empties s b :
  fst (clear_favorites s) = Done b ->
  fst (get_favorites (snd (clear_favorites s))) = Done (JList [])
  /\ (forall city, fst (is_favorite city (snd (clear_favorites s))) = Done false)
  /\ (forall key default,
        fst (get_setting key default (snd (clear_favorites s)))
        = fst (get_setting key default s)).
Proof.
  cbv [clear_favorites bind lift get_data ret]. simpl.
  destruct (data (self s)) as [| | | | |items] eqn:Hd; simpl; try discriminate.
  match goal with |- context [_save_data JNone ?s1] =>
    destruct (save_data_run s1) as (_ & Hs & _) end.
  intros _. split; [|split].
  - cbv [get_favorites bind lift get_data]. rewrite Hs. simpl.
    now rewrite dict_get_set_eq.
  - intros city. rewrite is_favorite_run, Hs. simpl.
    now rewrite dict_get_set_eq.
  - intros key default. rewrite !get_setting_run, Hs, Hd. simpl.
    now rewrite dict_get_set_ne by discriminate.
Qed.

(** X26. A new [DataStorage] takes the data of a file that decodes as they
    are, without writing. Otherwise it starts without favourites: a missing
    or corrupted file is replaced by one attempt to write the default data,
    and a file that cannot be read is left alone. *)
Theorem new_store_loads_or_defaults name (found : FileState) d :
  let s := __init__ name found d in
  match found with
  | Holds content => data (self s) = content /\ attempts s = [] /\ stdout s = []
  | Missing =>
      fst (get_favorites s) = Done (JList [])
      /\ fst (get_setting "units" JNone s) = Done (JStr "metric")
      /\ attempts s = [data (self s)]
  | Corrupted =>
      fst (get_favorites s) = Done (JList [])
      /\ attempts s = [data (self s)]
  | Unreadable _ =>
      fst (get_favorites s) = Done (JList [])
      /\ attempts s = []
  end.
Proof.
  cbv zeta. unfold __init__.
  destruct found as [|content| |msg]; cbv [_load_data bind ret set_data print].
  - match goal with |- context [_save_data ?a ?s1] =>
      destruct (_save_data a s1) as [r s2] eqn:E end.
    revert E. cbv [_save_data bind get_data write_file print ret]. simpl.
    destruct (d 0%nat); simpl; intros [= <- <-]; simpl; auto.
  - simpl. auto.
  - match goal with |- context [_save_data ?a ?s1] =>
      destruct (_save_data a s1) as [r s2] eqn:E end.
    revert E. cbv [_save_data bind get_data write_file print ret]. simpl.
    destruct (d 0%nat); simpl; intros [= <- <-]; simpl; auto.
  - simpl. auto.
Qed.

End StoreProperties.

End DataStorageFacts.

(** ** The properties on the example client *)

Section Examples.

#[local] Existing Instance demo_num.


(** The scenario of the specification: with the window of 600 seconds, a
    lookup at t=0 fetches, the same lookup at t=300 is served from the
    cache, and the one at t=601 fetches again. *)
Example scenario_600_seconds :
  let clk n := nth n [0; 300000000; 601000000] 602000000 in
  let s0 := start "your_api_key_here" clk demo_server in
  let s1 := snd (get_current_weather "Paris" s0) in
  let s2 := snd (get_current_weather "Paris" s1) in
  let s3 := snd (get_current_weather "Paris" s2) in
  length (sent s1) = 1%nat
  /\ fst (get_current_weather "Paris" s1) = fst (get_current_weather "Paris" s0)
  /\ length (sent s2) = 1%nat
  /\ stdout s2 = ["(Using cached data)"]
  /\ length (sent s3) = 2%nat.
Proof. vm_compute. repeat split. Qed.

(** A forecast: one entry per day, the one of 12 o'clock. *)
Example forecast_of_rome :
  fst (get_forecast "Rome" demo_start)
  = Val (JDict
           [("city", JStr "Rome");
            ("forecasts",
             JList [JDict [("date", JStr "Thursday, January 01");
                           ("temp_min", JNum 10); ("temp_max", JNum 18);
                           ("description", JStr "light rain");
                           ("humidity", JNum 50)];
                    JDict [("date", JStr "Friday, January 02");
                           ("temp_min", JNum 9); ("temp_max", JNum 17);
                           ("description", JStr "light rain");
                           ("humidity", JNum 50)]])]).
Proof. vm_compute. reflexivity. Qed.

(** C1 fails when the first call's fetch fails: nothing is stored, and the
    same lookup made at once sends the request a second time. *)
Lemma failed_fetch_is_sent_again :
  ~ second_call_served Current "Atlantis" demo_start.
Proof.
  unfold second_call_served. intros Hc.
  destruct Hc as [Hsent _]; [vm_compute; reflexivity|].
  apply (f_equal (@length _)) in Hsent. vm_compute in Hsent. discriminate.
Qed.

Lemma cached_data_is_served_again_witness :
  fst (run_lookup Current "Paris" demo_start) = Val demo_info
  /\ demo_info <> JNone
  /\ fst (run_lookup Current "Paris" (demo_cached 300000000)) = Val demo_info
  /\ sent (snd (run_lookup Current "Paris" (demo_cached 300000000)))
     = sent (demo_cached 300000000).
Proof.
  assert (Hr : fst (run_lookup Current "Paris" demo_start) = Val demo_info)
    by (vm_compute; reflexivity).
  assert (Hv : demo_info <> JNone) by discriminate.
  split; [exact Hr|]. split; [exact Hv|].
  destruct (cached_data_is_served_again Current "Paris" demo_start demo_info Hr Hv)
    as (e & He & _ & Hserved).
  apply Hserved.
  assert (He' : cache (self (snd (run_lookup Current "Paris" demo_start)))
                  !! lookup_key Current "Paris" = Some demo_entry)
    by (vm_compute; reflexivity).
  rewrite He' in He. injection He as <-. vm_compute. reflexivity.
Defined.

Lemma stale_entry_is_refetched_witness :
  cache (self (demo_cached 601000000)) !! lookup_key Current "Paris"
  = Some demo_entry
  /\ cache_duration (self (demo_cached 601000000)) * 1000000
     <= next_now (demo_cached 601000000) - timestamp demo_entry
  /\ sent (snd (run_lookup Current "Paris" (demo_cached 601000000)))
     = sent (demo_cached 601000000)
         ++ [request_for (demo_cached 601000000) Current "Paris"]
  /\ fst (run_lookup Current "Paris" (demo_cached 601000000))
     = Val (demo_info_of 21).
Proof.
  assert (He : cache (self (demo_cached 601000000)) !! lookup_key Current "Paris"
               = Some demo_entry) by (vm_compute; reflexivity).
  assert (Hle : cache_duration (self (demo_cached 601000000)) * 1000000
                <= next_now (demo_cached 601000000) - timestamp demo_entry)
    by (vm_compute; discriminate).
  split; [exact He|]. split; [exact Hle|].
  destruct (stale_entry_is_refetched Current "Paris" _ demo_entry He Hle)
    as (Hsent & d & Hd & Hx).
  split; [exact Hsent|].
  assert (Hbody : d = demo_body "Paris" 21).
  { assert (Hd' : fst (_make_request (endpoint_of Current) [("q", "Paris")]
                         (checked (demo_cached 601000000)
                                  (lookup_key Current "Paris")))
                  = Val (demo_body "Paris" 21)) by (vm_compute; reflexivity).
    congruence. }
  subst d. exact (proj1 Hx).
Defined.

Lemma window_edge_is_stale_witness :
  cache (self (demo_cached 600000000)) !! lookup_key Current "Paris"
  = Some demo_entry
  /\ next_now (demo_cached 600000000) - timestamp demo_entry
     = cache_duration (self (demo_cached 600000000)) * 1000000
  /\ fst (_is_cache_valid (lookup_key Current "Paris") (demo_cached 600000000))
     = Val false.
Proof.
  assert (He : cache (self (demo_cached 600000000)) !! lookup_key Current "Paris"
               = Some demo_entry) by (vm_compute; reflexivity).
  assert (Heq : next_now (demo_cached 600000000) - timestamp demo_entry
                = cache_duration (self (demo_cached 600000000)) * 1000000)
    by (vm_compute; reflexivity).
  split; [exact He|]. split; [exact Heq|].
  exact (proj1 (window_edge_is_stale Current "Paris" _ demo_entry He Heq)).
Defined.

Lemma failed_fetch_returns_none_witness :
  fst (_is_cache_valid (lookup_key Current "Atlantis") demo_start) = Val false
  /\ fst (_make_request (endpoint_of Current) [("q", "Atlantis")]
            (snd (_is_cache_valid (lookup_key Current "Atlantis") demo_start)))
     = Val JNone
  /\ truthy JNone = false
  /\ fst (run_lookup Current "Atlantis" demo_start) = Val JNone
  /\ cache (self (snd (run_lookup Current "Atlantis" demo_start)))
     = cache (self demo_start).
Proof.
  assert (Hv : fst (_is_cache_valid (lookup_key Current "Atlantis") demo_start)
               = Val false) by (vm_compute; reflexivity).
  assert (Hm : fst (_make_request (endpoint_of Current) [("q", "Atlantis")]
                      (snd (_is_cache_valid (lookup_key Current "Atlantis")
                              demo_start)))
               = Val JNone) by (vm_compute; reflexivity).
  assert (Ht : truthy JNone = false) by reflexivity.
  split; [exact Hv|]. split; [exact Hm|]. split; [exact Ht|].
  exact (failed_fetch_returns_none Current "Atlantis" demo_start JNone Hv Hm Ht).
Defined.



(** C4 fails on the client: from a cache that holds Paris and Rome, no
    call of a method leaves the cache that [invalidate] of the Paris key
    would leave. *)
Lemma no_call_invalidates :
  ~ exists c : Call,
      invalidated "current_paris" (cache (self demo_two_cities))
                  (cache (self (exec c demo_two_cities))).
Proof.
  intros [c Hc]. unfold invalidated in Hc.
  pose proof (exec_keeps_or_empties c demo_two_cities) as Hk.
  destruct c as [kind city|].
  - specialize (Hk "current_paris"). rewrite Hc, lookup_delete_eq in Hk.
    destruct Hk as [x Hx]; [|discriminate].
    eexists. vm_compute. reflexivity.
  - rewrite Hk in Hc.
    assert (Hrome : is_Some (delete "current_paris" (cache (self demo_two_cities))
                               !! "current_rome")).
    { rewrite lookup_delete_ne by discriminate. eexists. vm_compute. reflexivity. }
    rewrite <- Hc, lookup_empty in Hrome. destruct Hrome as [x Hx]. discriminate.
Qed.

(** *** Witnesses of the further properties *)

Lemma make_request_failure_is_none_witness :
  (forall j, network demo_start (length (sent demo_start))
                     (request_built demo_start "weather" [("q", "Atlantis")])
             <> Response 200 (inr j))
  /\ fst (_make_request "weather" [("q", "Atlantis")] demo_start) = Val JNone.
Proof.
  assert (Hf : forall j,
             network demo_start (length (sent demo_start))
                     (request_built demo_start "weather" [("q", "Atlantis")])
             <> Response 200 (inr j))
    by (intros j; vm_compute; discriminate).
  split; [exact Hf|].
  exact (proj1 (make_request_failure_is_none "weather" [("q", "Atlantis")]
                  demo_start Hf)).
Defined.

Lemma parse_error_propagates_witness :
  fst (_is_cache_valid (lookup_key Current "Paris") demo_broken) = Val false
  /\ fst (_make_request (endpoint_of Current) [("q", "Paris")]
            (snd (_is_cache_valid (lookup_key Current "Paris") demo_broken)))
     = Val (JDict [("cod", JStr "200")])
  /\ truthy (JDict [("cod", JStr "200")]) = true
  /\ parser_of Current (JDict [("cod", JStr "200")]) = Raise KeyError
  /\ fst (run_lookup Current "Paris" demo_broken) = Raise KeyError.
Proof.
  assert (Hv : fst (_is_cache_valid (lookup_key Current "Paris") demo_broken)
               = Val false) by (vm_compute; reflexivity).
  assert (Hm : fst (_make_request (endpoint_of Current) [("q", "Paris")]
                      (snd (_is_cache_valid (lookup_key Current "Paris")
                              demo_broken)))
               = Val (JDict [("cod", JStr "200")])) by (vm_compute; reflexivity).
  assert (Ht : truthy (JDict [("cod", JStr "200")]) = true) by reflexivity.
  assert (Hp : parser_of Current (JDict [("cod", JStr "200")]) = Raise KeyError)
    by reflexivity.
  split; [exact Hv|]. split; [exact Hm|]. split; [exact Ht|]. split; [exact Hp|].
  exact (proj1 (parse_error_propagates Current "Paris" demo_broken _ _
                  Hv Hm Ht Hp)).
Defined.

Lemma entry_from_the_future_is_served_witness :
  cache (self demo_set_back) !! lookup_key Current "Paris"
  = Some {| data := demo_info; timestamp := 3600000000 |}
  /\ next_now demo_set_back <= 3600000000
  /\ 0 < cache_duration (self demo_set_back)
  /\ sent (snd (run_lookup Current "Paris" demo_set_back)) = sent demo_set_back.
Proof.
  assert (He : cache (self demo_set_back) !! lookup_key Current "Paris"
               = Some {| data := demo_info; timestamp := 3600000000 |})
    by (vm_compute; reflexivity).
  assert (Hle : next_now demo_set_back
                <= timestamp {| data := demo_info; timestamp := 3600000000 |})
    by (vm_compute; discriminate).
  assert (Hpos : 0 < cache_duration (self demo_set_back))
    by (vm_compute; reflexivity).
  split; [exact He|]. split; [exact Hle|]. split; [exact Hpos|].
  exact (proj1 (proj2 (entry_from_the_future_is_served Current "Paris"
                         demo_set_back _ He Hle Hpos))).
Defined.

Lemma cached_data_is_never_none_witness :
  cache (self (exec_all [Lookup Current "Paris"]
                 (start "your_api_key_here" (linear_clock 0 300000000)
                        demo_server)))
    !! "current_paris" = Some demo_entry
  /\ data demo_entry <> JNone.
Proof.
  assert (He : cache (self (exec_all [Lookup Current "Paris"]
                              (start "your_api_key_here"
                                     (linear_clock 0 300000000) demo_server)))
                 !! "current_paris" = Some demo_entry)
    by (vm_compute; reflexivity).
  split; [exact He|].
  exact (proj2 (cached_data_is_never_none _ _ _ _ _ _ He)).
Defined.

Lemma timestamps_are_past_readings_witness :
  cache (self (exec_all [Lookup Current "Paris"]
                 (start "your_api_key_here" (linear_clock 0 300000000)
                        demo_server)))
    !! "current_paris" = Some demo_entry
  /\ exists i, (i < 1)%nat /\ timestamp demo_entry = linear_clock 0 300000000 i.
Proof.
  assert (He : cache (self (exec_all [Lookup Current "Paris"]
                              (start "your_api_key_here"
                                     (linear_clock 0 300000000) demo_server)))
                 !! "current_paris" = Some demo_entry)
    by (vm_compute; reflexivity).
  split; [exact He|].
  exact (proj1 (timestamps_are_past_readings _ _ _ _ _ _ He)).
Defined.

Lemma forecast_has_at_most_five_days_witness :
  forecast_info_of (demo_forecast_body "Rome")
  = Val (JDict [("city", JStr "Rome"); ("forecasts", JList demo_forecasts)])
  /\ exists name forecasts,
       JDict [("city", JStr "Rome"); ("forecasts", JList demo_forecasts)]
       = JDict [("city", name); ("forecasts", JList forecasts)]
       /\ (length forecasts <= 5)%nat.
Proof.
  assert (Hp : forecast_info_of (demo_forecast_body "Rome")
               = Val (JDict [("city", JStr "Rome");
                             ("forecasts", JList demo_forecasts)]))
    by (vm_compute; reflexivity).
  split; [exact Hp|].
  exact (forecast_has_at_most_five_days _ _ Hp).
Defined.

Lemma forecast_without_noon_is_empty_witness :
  Forall off_noon [demo_item 54000 12 19]
  /\ forecast_loop [demo_item 54000 12 19] [] ∅ = Val [].
Proof.
  assert (Hall : Forall off_noon [demo_item 54000 12 19]).
  { constructor; [|constructor].
    unfold off_noon. eexists. eexists.
    split; [reflexivity|]. split; [reflexivity|]. simpl. discriminate. }
  split; [exact Hall|].
  exact (forecast_without_noon_is_empty _ [] ∅ Hall).
Defined.

Lemma forecast_is_one_per_day_at_noon_witness :
  forecast_loop demo_items [] ∅ = Val demo_forecasts
  /\ exists picks,
       Forall2 picked_at_noon picks demo_forecasts
       /\ Forall (fun p => In (fst p) demo_items) picks
       /\ NoDup (map (fun p => date_str (snd p)) picks).
Proof.
  assert (Hl : forecast_loop demo_items [] ∅ = Val demo_forecasts)
    by (vm_compute; reflexivity).
  split; [exact Hl|].
  exact (forecast_is_one_per_day_at_noon _ _ Hl).
Defined.

End Examples.

(** ** The favourites store on an example *)

Section StoreExamples.

Import DataStorage DataStorageFacts.

#[local] Existing Instance demo_num.
#[local] Existing Instance demo_text.

(** Paris and Rome added to a new store. *)
Example two_favorites :
  fst (get_favorites
         (snd (add_favorite "rome" (snd (add_favorite "  paris " demo_store)))))
  = Done (JList [JStr "Paris"; JStr "Rome"]).
Proof. vm_compute. reflexivity. Qed.

Lemma added_city_is_favorite_witness :
  fst (add_favorite "  paris " demo_store) = Done true
  /\ title (Str.strip "PARIS") = title (Str.strip "  paris ")
  /\ fst (is_favorite "PARIS" (snd (add_favorite "  paris " demo_store)))
     = Done true.
Proof.
  assert (Hr : fst (add_favorite "  paris " demo_store) = Done true)
    by (vm_compute; reflexivity).
  assert (Ht : title (Str.strip "PARIS") = title (Str.strip "  paris "))
    by (vm_compute; reflexivity).
  split; [exact Hr|]. split; [exact Ht|].
  exact (added_city_is_favorite "  paris " "PARIS" demo_store true Hr Ht).
Defined.

Lemma add_existing_is_refused_witness :
  fst (is_favorite "paris" (snd (add_favorite "Paris" demo_store))) = Done true
  /\ fst (add_favorite "paris" (snd (add_favorite "Paris" demo_store)))
     = Done false.
Proof.
  assert (Hf : fst (is_favorite "paris" (snd (add_favorite "Paris" demo_store)))
               = Done true) by (vm_compute; reflexivity).
  split; [exact Hf|].
  now rewrite (add_existing_is_refused "paris" _ Hf).
Defined.

Lemma add_appends_and_saves_witness :
  favorite_list demo_store_read_only = Some []
  /\ existsb (eq_str (title (Str.strip "Paris"))) [] = false
  /\ favorite_list (snd (add_favorite "Paris" demo_store_read_only))
     = Some [JStr "Paris"]
  /\ fst (add_favorite "Paris" demo_store_read_only) = Done false.
Proof.
  assert (Hl : favorite_list demo_store_read_only = Some [])
    by (vm_compute; reflexivity).
  assert (Hin : existsb (eq_str (title (Str.strip "Paris"))) [] = false)
    by reflexivity.
  split; [exact Hl|]. split; [exact Hin|].
  destruct (add_appends_and_saves "Paris" demo_store_read_only [] Hl Hin)
    as (Ha & Hb & _).
  split; [exact Ha|exact Hb].
Defined.

Lemma favorites_stay_distinct_witness :
  favorite_list (snd (add_favorite "Paris" demo_store)) = Some [JStr "Paris"]
  /\ NoDup [@JStr demo_num "Paris"]
  /\ exists l', favorite_list
                  (snd (add_favorite "paris" (snd (add_favorite "Paris" demo_store))))
                = Some l'
                /\ NoDup l'.
Proof.
  assert (Hl : favorite_list (snd (add_favorite "Paris" demo_store))
               = Some [JStr "Paris"]) by (vm_compute; reflexivity).
  assert (Hnd : NoDup [@JStr demo_num "Paris"]) by apply NoDup_singleton.
  split; [exact Hl|]. split; [exact Hnd|].
  exact (favorites_stay_distinct "paris" _ _ Hl Hnd).
Defined.

Lemma remove_undoes_add_witness :
  favorite_list (snd (add_favorite "Paris" demo_store)) = Some [JStr "Paris"]
  /\ existsb (eq_str (title (Str.strip "rome"))) [@JStr demo_num "Paris"] = false
  /\ favorite_list
       (snd (remove_favorite "rome"
               (snd (add_favorite "rome" (snd (add_favorite "Paris" demo_store))))))
     = Some [JStr "Paris"].
Proof.
  assert (Hl : favorite_list (snd (add_favorite "Paris" demo_store))
               = Some [JStr "Paris"]) by (vm_compute; reflexivity).
  assert (Hin : existsb (eq_str (title (Str.strip "rome")))
                        [@JStr demo_num "Paris"] = false)
    by (vm_compute; reflexivity).
  split; [exact Hl|]. split; [exact Hin|].
  exact (remove_undoes_add "rome" _ _ Hl Hin).
Defined.

Lemma remove_absent_is_refused_witness :
  fst (is_favorite "Rome" demo_store) = Done false
  /\ remove_favorite "Rome" demo_store = (Done false, demo_store).
Proof.
  assert (Hf : fst (is_favorite "Rome" demo_store) = Done false)
    by (vm_compute; reflexivity).
  split; [exact Hf|].
  exact (remove_absent_is_refused "Rome" demo_store Hf).
Defined.

Lemma removed_city_is_gone_witness :
  favorite_list (snd (add_favorite "Paris" demo_store)) = Some [JStr "Paris"]
  /\ NoDup [@JStr demo_num "Paris"]
  /\ fst (is_favorite "Paris"
            (snd (remove_favorite "Paris" (snd (add_favorite "Paris" demo_store)))))
     = Done false.
Proof.
  assert (Hl : favorite_list (snd (add_favorite "Paris" demo_store))
               = Some [JStr "Paris"]) by (vm_compute; reflexivity).
  assert (Hnd : NoDup [@JStr demo_num "Paris"]) by apply NoDup_singleton.
  split; [exact Hl|]. split; [exact Hnd|].
  exact (removed_city_is_gone "Paris" _ _ Hl Hnd).
Defined.

Lemma setting_round_trip_witness :
  fst (set_setting "units" (JStr "imperial") demo_store) = Done true
  /\ fst (get_setting "units" JNone
            (snd (set_setting "units" (JStr "imperial") demo_store)))
     = Done (JStr "imperial").
Proof.
  assert (Hr : fst (set_setting "units" (JStr "imperial") demo_store) = Done true)
    by (vm_compute; reflexivity).
  split; [exact Hr|].
  exact (proj1 (setting_round_trip "units" (JStr "imperial") JNone
                  demo_store true Hr)).
Defined.

Lemma default_city_round_trip_witness :
  fst (set_default_city " new york" demo_store) = Done true
  /\ fst (get_default_city (snd (set_default_city " new york" demo_store)))
     = Done (JStr (title (Str.strip " new york"))).
Proof.
  assert (Hr : fst (set_default_city " new york" demo_store) = Done true)
    by (vm_compute; reflexivity).
  split; [exact Hr|].
  exact (default_city_round_trip " new york" demo_store true Hr).
Defined.

Lemma clear_favorites_empties_witness :
  fst (clear_favorites (snd (add_favorite "Paris" demo_store))) = Done true
  /\ fst (get_favorites
            (snd (clear_favorites (snd (add_favorite "Paris" demo_store)))))
     = Done (JList []).
Proof.
  assert (Hr : fst (clear_favorites (snd (add_favorite "Paris" demo_store)))
               = Done true) by (vm_compute; reflexivity).
  split; [exact Hr|].
  exact (proj1 (clear_favorites_empties _ true Hr)).
Defined.

End StoreExamples.
